(** * OrderDesk datastore adapter

    A shallow embedding of
    [src/functions/datastore-integration-orderdesk/DataStore.js]:
    the credential resolver, the inventory validator and canonical
    conversion, the order mapper and the two inventory requests.

    JavaScript data lives in a heap of objects and arrays addressed by
    references, so that copies ([{...x}]) and in-place updates
    ([delete o.k], [o.k = v]) keep their aliasing.  Exceptions are
    results; the stateful methods run in a state-and-exception monad over
    the heap and the log of HTTP requests sent. *)

From Stdlib Require Import PrimFloat Ascii String.
From stdpp Require Import gmap strings list pretty.

Local Open Scope string_scope.

(** ** JavaScript values and the heap *)

Module JS.

Abbreviation loc := nat.

(** A number is an IEEE 754 double, as in the language. *)
Inductive value :=
| VUndef
| VNull
| VBool (b : bool)
| VNum (n : float)
| VStr (s : string)
| VRef (l : loc).

(** Plain data objects (own enumerable properties) and arrays. *)
Inductive object :=
| OObj (props : gmap string value)
| OArr (elems : list value).

Abbreviation heap := (list object).

(** Thrown values.  [Error] carries the message and the [cause] that the
    constructor installs; engine-made errors are kept by class only;
    [Rejected] is for a promise that the transport rejects. *)
Inductive error :=
| Error (message : string) (cause : option value)
| TypeError
| RangeError
| Rejected (reason : string).

Inductive result (A : Type) :=
| Ok (a : A)
| Throw (e : error).
Arguments Ok {A} a.
Arguments Throw {A} e.

Definition bind {A B} (r : result A) (k : A -> result B) : result B :=
  match r with
  | Ok a => k a
  | Throw e => Throw e
  end.

Declare Scope result_scope.
Delimit Scope result_scope with R.
Notation "'let*' x ':=' r 'in' k" := (bind r (fun x => k))
  (at level 10, x name, r at level 100, k at level 200) : result_scope.

(** ToBoolean. *)
Definition truthy (v : value) : bool :=
  match v with
  | VUndef | VNull => false
  | VBool b => b
  | VNum n => negb (is_zero n || is_nan n)
  | VStr s => negb (String.eqb s "")
  | VRef _ => true
  end.

(** [a === b]. *)
Definition strict_equals (a b : value) : bool :=
  match a, b with
  | VUndef, VUndef | VNull, VNull => true
  | VBool x, VBool y => Bool.eqb x y
  | VNum x, VNum y => PrimFloat.eqb x y
  | VStr x, VStr y => String.eqb x y
  | VRef x, VRef y => Nat.eqb x y
  | _, _ => false
  end.

(** [a && b] and [a || b]; the right operand is only used when reached. *)
Definition and_then (a : value) (b : result value) : result value :=
  if truthy a then b else Ok a.

Definition or_else (a : value) (b : result value) : result value :=
  if truthy a then Ok a else b.

(** Own enumerable properties, as [{...v}] and [v.k] see them: the fields
    of an object, the indexed elements of an array, the indexed characters
    of a string (its bytes, here), nothing for the other primitives.  A
    reference outside the heap has no properties. *)
Definition indexed {A} (f : A -> value) (l : list A) : gmap string value :=
  list_to_map (imap (fun i x => (pretty i, f x)) l).

Definition char_value (c : ascii) : value := VStr (String c "").

Definition own_props (h : heap) (v : value) : gmap string value :=
  match v with
  | VRef l =>
      match h !! l with
      | Some (OObj props) => props
      | Some (OArr elems) => indexed (fun x => x) elems
      | None => ∅
      end
  | VStr s => indexed char_value (list_ascii_of_string s)
  | _ => ∅
  end.

Definition nullish (v : value) : bool :=
  match v with
  | VUndef | VNull => true
  | _ => false
  end.

Definition field (h : heap) (v : value) (k : string) : value :=
  default VUndef (own_props h v !! k).

(** [v.k] (and [v[0]] with [k = "0"]) for the data keys this program
    reads; none of them is inherited from a prototype. *)
Definition get (h : heap) (v : value) (k : string) : result value :=
  if nullish v then Throw TypeError else Ok (field h v k).

(** [new Error(message, options)]: the cause is installed only when
    [options] is an object that has a [cause] property. *)
Definition new_Error (h : heap) (message : string) (options : value) : error :=
  Error message
    match options with
    | VRef _ => own_props h options !! "cause"
    | _ => None
    end.

(** Character classes: a range of codes, and [[A-Za-z0-9]]. *)
Definition in_range (lo hi c : ascii) : bool :=
  (nat_of_ascii lo <=? nat_of_ascii c)%nat && (nat_of_ascii c <=? nat_of_ascii hi)%nat.

Definition is_alnum (c : ascii) : bool :=
  in_range "A" "Z" c || in_range "a" "z" c || in_range "0" "9" c.

(** [arr.map(f)] style traversal that stops at the first exception. *)
Fixpoint traverse {A B} (f : A -> result B) (l : list A) : result (list B) :=
  match l with
  | [] => Ok []
  | x :: l' =>
      match f x with
      | Throw e => Throw e
      | Ok y =>
          match traverse f l' with
          | Throw e => Throw e
          | Ok ys => Ok (y :: ys)
          end
      end
  end.

(** [arr.filter(keep)] over the elements, stopping at the first exception. *)
Fixpoint filter_result {A} (keep : A -> result bool) (l : list A) : result (list A) :=
  match l with
  | [] => Ok []
  | x :: l' =>
      match keep x with
      | Throw e => Throw e
      | Ok b =>
          match filter_result keep l' with
          | Throw e => Throw e
          | Ok ys => Ok (if b then x :: ys else ys)
          end
      end
  end.

Section Conversions.

(** Number::toString, the engine's shortest round-trip printer. *)
Variable number_to_string : float -> string.

(** ToString.  A primitive converts directly.  A plain object goes
    through [Object.prototype.toString] unless an own [toString] field
    (data, so not callable) shadows it, which leaves no conversion.  An
    array goes through [Array.prototype.join], which converts its
    elements in turn; [depth] is the room left on the call stack. *)
Fixpoint ToString (depth : nat) (h : heap) (v : value) : result string :=
  match v with
  | VUndef => Ok "undefined"
  | VNull => Ok "null"
  | VBool b => Ok (if b then "true" else "false")
  | VNum n => Ok (number_to_string n)
  | VStr s => Ok s
  | VRef l =>
      match depth with
      | O => Throw RangeError
      | S d =>
          match h !! l with
          | Some (OArr elems) =>
              match traverse (fun x =>
                                match x with
                                | VUndef | VNull => Ok ""
                                | _ => ToString d h x
                                end) elems with
              | Ok parts => Ok (String.concat "," parts)
              | Throw e => Throw e
              end
          | Some (OObj props) =>
              match props !! "toString" with
              | Some _ => Throw TypeError
              | None => Ok "[object Object]"
              end
          | None => Ok "[object Object]"
          end
      end
  end.

(** [arr.join(',')]: only arrays have the method. *)
Definition join (depth : nat) (h : heap) (arr : value) : result string :=
  match arr with
  | VRef l =>
      match h !! l with
      | Some (OArr _) => ToString (S depth) h arr
      | _ => Throw TypeError
      end
  | _ => Throw TypeError
  end.

End Conversions.

(** ** HTTP requests *)

Record request := {
  url : string;
  method : string;
  headers : list (string * value);
  body : option string
}.

(** The [application/x-www-form-urlencoded] serialiser behind
    [URLSearchParams.prototype.toString], over the bytes of the string. *)
Definition hex_digit (n : nat) : ascii :=
  nth n (list_ascii_of_string "0123456789ABCDEF") "0"%char.

Definition urlencode_byte (c : ascii) : list ascii :=
  if is_alnum c || bool_decide (c ∈ list_ascii_of_string "*-._") then [c]
  else if Ascii.eqb c " " then ["+"%char]
  else ["%"%char; hex_digit (nat_of_ascii c / 16); hex_digit (nat_of_ascii c mod 16)].

Definition urlencode (s : string) : string :=
  string_of_list_ascii (flat_map urlencode_byte (list_ascii_of_string s)).

Definition URLSearchParams_toString (params : list (string * string)) : string :=
  String.concat "&" (map (fun p => urlencode (fst p) +:+ "=" +:+ urlencode (snd p)) params).

(** ** State: the heap and the requests sent so far *)

Record state := { heap_of : heap; sent : list request }.

Definition M (A : Type) : Type := state -> result A * state.

Definition ret {A} (a : A) : M A := fun st => (Ok a, st).

Definition throw {A} (e : error) : M A := fun st => (Throw e, st).

Definition bindM {A B} (m : M A) (k : A -> M B) : M B :=
  fun st =>
    match m st with
    | (Ok a, st') => k a st'
    | (Throw e, st') => (Throw e, st')
    end.

Declare Scope M_scope.
Delimit Scope M_scope with M.
Notation "'let*' x ':=' m 'in' k" := (bindM m (fun x => k))
  (at level 10, x name, m at level 100, k at level 200) : M_scope.
Notation "m1 ;; m2" := (bindM m1 (fun _ => m2))
  (at level 100, m2 at level 200, right associativity) : M_scope.

(** A computation that only reads the heap. *)
Definition read {A} (f : heap -> result A) : M A :=
  fun st => (f (heap_of st), st).

(** The state with one more object, at the next free location. *)
Definition extend (st : state) (o : object) : state :=
  {| heap_of := heap_of st ++ [o]; sent := sent st |}.

Definition on_props (f : gmap string value -> gmap string value) (o : object) : object :=
  match o with
  | OObj props => OObj (f props)
  | OArr elems => OArr elems
  end.

(** The state with the properties of the object at [l] changed in place. *)
Definition update (st : state) (l : loc) (f : gmap string value -> gmap string value) : state :=
  {| heap_of := alter (on_props f) l (heap_of st); sent := sent st |}.

(** An object or array literal: a fresh location. *)
Definition alloc (o : object) : M loc :=
  fun st => (Ok (length (heap_of st)), extend st o).

Definition update_props (f : gmap string value -> gmap string value) (l : loc) : M unit :=
  fun st => (Ok tt, update st l f).

(** [o.k = v] and [delete o.k] on an object made by a literal. *)
Definition set_prop (l : loc) (k : string) (v : value) : M unit :=
  update_props (insert k v) l.

Definition delete_prop (l : loc) (k : string) : M unit :=
  update_props (delete k) l.

End JS.
Import JS.

(** ** The credentials pattern

    [/Store ID (\d{5}) API Key ([A-Za-z0-9]+)$/] over the characters of
    the subject.  A string is its sequence of bytes; the literals and
    classes of the pattern are ASCII, so a match falls on whole
    characters. *)

Module Regex.

(** [\d] *)
Definition is_digit (c : ascii) : bool := in_range "0" "9" c.

(** [[A-Za-z0-9]] is [JS.is_alnum]. *)

(** A literal run of the pattern: the rest of the subject after it. *)
Fixpoint literal (p s : list ascii) : option (list ascii) :=
  match p, s with
  | [], _ => Some s
  | a :: p', b :: s' => if Ascii.eqb a b then literal p' s' else None
  | _ :: _, [] => None
  end.

(** The text of a match whose groups are [i] and [k]. *)
Definition subject (i k : list ascii) : list ascii :=
  (list_ascii_of_string "Store ID " ++ i ++ list_ascii_of_string " API Key " ++ k)%list.

(** The pattern tried at the head of [s]: the two groups.  After
    [Store ID ] come exactly five digits, then [ API Key ], then the
    greedy run of alphanumerics, which has to be non-empty and to reach the
    end of the subject. *)
Definition match_here (s : list ascii) : option (list ascii * list ascii) :=
  match literal (list_ascii_of_string "Store ID ") s with
  | None => None
  | Some r1 =>
      let d := take 5 r1 in
      if (length d =? 5)%nat && forallb is_digit d then
        match literal (list_ascii_of_string " API Key ") (drop 5 r1) with
        | None => None
        | Some r2 =>
            match r2 with
            | [] => None
            | _ :: _ => if forallb is_alnum r2 then Some (d, r2) else None
            end
        end
      else None
  end.

(** The engine tries every start position from the left; the result is
    the whole match followed by the groups. *)
Fixpoint exec (s : list ascii) : option (list (list ascii)) :=
  match match_here s with
  | Some (g1, g2) => Some [s; g1; g2]
  | None =>
      match s with
      | [] => None
      | _ :: s' => exec s'
      end
  end.

(** [subject.match(/.../)] for a string subject: [null] is [None]. *)
Definition string_match (subject : string) : option (list string) :=
  fmap (M := option) (fmap (M := list) string_of_list_ascii)
    (exec (list_ascii_of_string subject)).

End Regex.

(** ** Configuration ([config.js], read by the adapter) *)

Module config.

Record orderDesk_t := { storeId : value; apiKey : value }.
Record provider_t := { orderDesk : orderDesk_t }.
Record datastore_t := { credentials : value; provider : provider_t }.
Record t := { datastore : datastore_t }.

End config.

(** ** The adapter *)

Module DataStore.

Local Open Scope result_scope.

Record Credentials := { id : value; key : value }.

Record t := { domain : string; api : string; credentials : Credentials }.

(** [rawCredentials.match(...)]: only strings have the method. *)
Definition call_match (rawCredentials : value) : result (option (list string)) :=
  match rawCredentials with
  | VStr s => Ok (Regex.string_match s)
  | _ => Throw TypeError
  end.

Definition parseConfigCredentials (config : config.t) : result Credentials :=
  let rawCredentials := config.credentials (config.datastore config) in
  let* matched := (if truthy rawCredentials then call_match rawCredentials else Ok None) in
  let discrete :=
    {| id := config.storeId (config.orderDesk (config.provider (config.datastore config)));
       key := config.apiKey (config.orderDesk (config.provider (config.datastore config))) |} in
  match matched with
  | Some m =>
      if (length m =? 3)%nat
      then Ok {| id := VStr (default "" (m !! 1%nat)); key := VStr (default "" (m !! 2%nat)) |}
      else Ok discrete
  | None => Ok discrete
  end.

Definition missing_credentials : string :=
  "Environment variables for OrderDesk store id and/or API key are missing.".

(** [setCredentials]: the credentials to store in [this.credentials]. *)
Definition setCredentials (config : config.t) : result Credentials :=
  let* credentials := parseConfigCredentials config in
  if negb (truthy (key credentials)) || negb (truthy (id credentials))
  then Throw (new_Error [] missing_credentials VUndef)
  else Ok credentials.

Section Construction.

(** [super()]: the constructor of [DataStoreBase], which is not among the
    sources and takes no argument; its outcome is a parameter. *)
Variable DataStoreBase_constructor : result unit.

Definition constructor (config : config.t) : result t :=
  let* _ := DataStoreBase_constructor in
  let* credentials := setCredentials config in
  Ok {| domain := "app.orderdesk.me"; api := "api/v2/"; credentials := credentials |}.

End Construction.

Section Methods.

(** The runtime: number printing, the call-stack room for conversions,
    [JSON.stringify], and the transport.  [fetch_json req h] stands for
    [await fetch(...)] followed by [response.json()]: it yields the
    parsed body, placed in the heap, or the rejection. *)
Variable number_to_string : float -> string.
Variable stack : nat.
Variable JSON_stringify : heap -> value -> result string.
Variable fetch_json : request -> heap -> result value * heap.

Variable this : t.

Definition fetch (req : request) : M value :=
  fun st =>
    let (r, h') := fetch_json req (heap_of st) in
    (r, {| heap_of := h'; sent := sent st ++ [req] |}).

Definition getDefaultHeader : list (string * value) :=
  [("Content-Type", VStr "application/json");
   ("ORDERDESK-API-KEY", key (credentials this));
   ("ORDERDESK-STORE-ID", id (credentials this))].

Definition buildEndpoint (path : string) : string :=
  "https://" +:+ domain this +:+ "/" +:+ api this +:+ path.

(** [!!(item.id && item.name && item.code &&
       (item.price || item.price === 0) &&
       (item.stock || item.stock === 0))] *)
Definition validateInventoryItem (h : heap) (item : value) : result bool :=
  let* v :=
    (let* id := get h item "id" in
     and_then id
       (let* name := get h item "name" in
        and_then name
          (let* code := get h item "code" in
           and_then code
             (let* p :=
                (let* price := get h item "price" in
                 or_else price
                   (let* price' := get h item "price" in
                    Ok (VBool (strict_equals price' (VNum 0))))) in
              and_then p
                (let* stock := get h item "stock" in
                 or_else stock
                   (let* stock' := get h item "stock" in
                    Ok (VBool (strict_equals stock' (VNum 0))))))))) in
  Ok (truthy v).

Local Open Scope M_scope.

(** [{...orderDeskItem, update_source: '...', inventory: orderDeskItem.stock}] *)
Definition convertToCanonical (orderDeskItem : value) : M value :=
  let* copied := read (fun h => Ok (own_props h orderDeskItem)) in
  let* stock := read (fun h => get h orderDeskItem "stock") in
  let* canonical :=
    alloc (OObj (<["inventory" := stock]>
                   (<["update_source" := VStr "Foxy-Orderdesk-Webhook"]> copied))) in
  ret (VRef canonical).

(** [items.filter(keep)]: a new array; only arrays have the method. *)
Definition Array_filter (keep : heap -> value -> result bool) (items : value) : M loc :=
  let* kept :=
    read (fun h =>
            match items with
            | VRef l =>
                match h !! l with
                | Some (OArr elems) => filter_result (keep h) elems
                | _ => Throw TypeError
                end
            | _ => Throw TypeError
            end) in
  alloc (OArr kept).

(** [arr.length] of an array made by [filter]. *)
Definition Array_length (l : loc) : M nat :=
  read (fun h =>
          match h !! l with
          | Some (OArr elems) => Ok (length elems)
          | _ => Ok O
          end).

(** [throw new Error(message, options)] *)
Definition throw_new_Error {A} (message : string) (options : value) : M A :=
  fun st => throw (new_Error (heap_of st) message options) st.

Definition updateInventoryItems (items : value) : M value :=
  let* invalid :=
    Array_filter (fun h i => bind (validateInventoryItem h i) (fun ok => Ok (negb ok)))
                 items in
  let* n := Array_length invalid in
  if (0 <? n)%nat then
    let* joined := read (fun h => join number_to_string stack h (VRef invalid)) in
    throw_new_Error "Invalid inventory items for update" (VStr joined)
  else
    let* body := read (fun h => JSON_stringify h items) in
    fetch {| url := buildEndpoint "batch-inventory-items";
             method := "PUT";
             headers := getDefaultHeader;
             body := Some body |}.

Definition fetchInventoryItems (items : value) : M value :=
  let* codes := read (fun h => join number_to_string stack h items) in
  let* parsed :=
    fetch {| url := buildEndpoint "inventory-items" +:+ "?"
                    +:+ URLSearchParams_toString [("code", codes)];
             method := "GET";
             headers := getDefaultHeader;
             body := None |} in
  read (fun h => get h parsed "inventory_items").

(** [body._embedded[k]] *)
Definition embedded (body : value) (k : string) : M value :=
  let* e := read (fun h => get h body "_embedded") in
  read (fun h => get h e k).

(** [body._embedded[k] ? body._embedded[k][0] : {}] *)
Definition first_or_empty (body : value) (k : string) : M value :=
  let* rel := embedded body k in
  if truthy rel then
    let* rel' := embedded body k in
    read (fun h => get h rel' "0")
  else
    let* empty := alloc (OObj ∅) in
    ret (VRef empty).

Definition assign (target : loc) (k : string) (source : value) (field : string) : M unit :=
  let* v := read (fun h => get h source field) in
  set_prop target k v.

(** Lines 124 to 152 of [createOrder]: the order object sent. *)
Definition createOrder_mapping (body : value) : M loc :=
  let* fxCustomer := embedded body "fx:customer" in
  let* fxShipment := first_or_empty body "fx:shipments" in
  let* fxPayment := first_or_empty body "fx:payments" in
  let* fxItems := embedded body "fx:items" in
  let* first_name := read (fun h => get h fxCustomer "first_name") in
  let* last_name := read (fun h => get h fxCustomer "last_name") in
  let* customer :=
    alloc (OObj (<["last_name" := last_name]> (<["first_name" := first_name]> ∅))) in
  let* spread := read (fun h => Ok (own_props h fxShipment)) in
  let* shipping := alloc (OObj spread) in
  delete_prop shipping "_links" ;;
  let* order := alloc (OObj ∅) in
  assign order "id" body "id" ;;
  assign order "email" body "customer_email" ;;
  set_prop order "customer" (VRef customer) ;;
  set_prop order "shipping" (VRef shipping) ;;
  set_prop order "source_name" (VStr "Foxy.io") ;;
  assign order "customer_id" fxCustomer "id" ;;
  assign order "product_total" body "total_item_price" ;;
  assign order "shipping_total" body "total_shipping" ;;
  assign order "tax_total" body "total_tax" ;;
  assign order "discount_total" body "total_discount" ;;
  assign order "order_total" body "total_order" ;;
  assign order "cc_number_masked" fxPayment "cc_number_masked" ;;
  let* month := read (fun h => get h fxPayment "cc_exp_month") in
  let* month_s := read (fun h => ToString number_to_string stack h month) in
  let* year := read (fun h => get h fxPayment "cc_exp_year") in
  let* year_s := read (fun h => ToString number_to_string stack h year) in
  set_prop order "cc_exp" (VStr (month_s +:+ "/" +:+ year_s)) ;;
  assign order "processor_response" fxPayment "processor_response" ;;
  assign order "payment_sattus" (VRef order) "status" ;;
  assign order "payment_type" fxPayment "cc_type" ;;
  set_prop order "order_items" fxItems ;;
  ret order.

Definition createOrder (body : value) : M value :=
  let* order := createOrder_mapping body in
  let* json := read (fun h => JSON_stringify h (VRef order)) in
  fetch {| url := buildEndpoint "orders";
           method := "POST";
           headers := getDefaultHeader;
           body := Some json |}.

End Methods.

End DataStore.

(** ** The properties, as stated

    What the specification says of each operation, written independently
    of the code above. *)

Module Spec.

(** *** Credentials *)

(** [Store ID <5 digits> API Key <alphanumeric>] at the end of a string. *)
Definition is_store_id (i : string) : bool :=
  (length (list_ascii_of_string i) =? 5)%nat
  && forallb Regex.is_digit (list_ascii_of_string i).

Definition is_api_key (k : string) : bool :=
  negb (String.eqb k "") && forallb is_alnum (list_ascii_of_string k).

Definition combined (before i k : string) : string :=
  before +:+ "Store ID " +:+ i +:+ " API Key " +:+ k.

Definition raw_credentials (cfg : config.t) : value :=
  config.credentials (config.datastore cfg).

Definition discrete_credentials (cfg : config.t) : DataStore.Credentials :=
  {| DataStore.id :=
       config.storeId (config.orderDesk (config.provider (config.datastore cfg)));
     DataStore.key :=
       config.apiKey (config.orderDesk (config.provider (config.datastore cfg))) |}.

(** The combined string is there and matches, with these groups. *)
Definition combined_matches (cfg : config.t) (i k : string) : Prop :=
  exists before,
    raw_credentials cfg = VStr (combined before i k)
    /\ is_store_id i = true /\ is_api_key k = true.

(** The combined string is absent, or is a string that does not match. *)
Definition combined_absent_or_malformed (cfg : config.t) : Prop :=
  truthy (raw_credentials cfg) = false
  \/ exists s, raw_credentials cfg = VStr s
             /\ forall before i k,
                 is_store_id i = true -> is_api_key k = true -> s <> combined before i k.

(** The discrete fields give a non-empty id and a non-empty key. *)
Definition discrete_present (cfg : config.t) : Prop :=
  truthy (DataStore.id (discrete_credentials cfg)) = true
  /\ truthy (DataStore.key (discrete_credentials cfg)) = true.

(** *** Inventory validation *)

Definition is_number (v : value) : bool :=
  match v with
  | VNum _ => true
  | _ => false
  end.

(** "a number or exactly 0" *)
Definition number_or_zero (v : value) : bool :=
  is_number v || strict_equals v (VNum 0).

(** Validity in the words of the specification. *)
Definition valid_as_stated (h : heap) (item : value) : bool :=
  truthy (field h item "id") && truthy (field h item "name")
  && truthy (field h item "code")
  && number_or_zero (field h item "price")
  && number_or_zero (field h item "stock").

(** "truthy or exactly 0" *)
Definition truthy_or_zero (v : value) : bool :=
  truthy v || strict_equals v (VNum 0).

Definition accepts (h : heap) (item : value) : bool :=
  truthy (field h item "id") && truthy (field h item "name")
  && truthy (field h item "code")
  && truthy_or_zero (field h item "price")
  && truthy_or_zero (field h item "stock").

(** [{id:"1", name:"A", code:"SKU1", price:0, stock:0}] *)
Definition boundary_fields : gmap string value :=
  list_to_map [("id", VStr "1"); ("name", VStr "A"); ("code", VStr "SKU1");
               ("price", VNum 0); ("stock", VNum 0)].

Definition missing_required (h : heap) (item : value) : Prop :=
  own_props h item !! "id" = None
  \/ own_props h item !! "name" = None
  \/ own_props h item !! "code" = None.

(** *** Inventory update *)

Definition invalid_items_error : error :=
  Error "Invalid inventory items for update" None.

(** An exception made by the engine, not by the adapter. *)
Definition engine_error (e : error) : Prop := e = TypeError \/ e = RangeError.

(** *** Canonical conversion *)

Definition update_source_tag : value := VStr "Foxy-Orderdesk-Webhook".

Definition canonical_props (h : heap) (item : value) : gmap string value :=
  <["inventory" := field h item "stock"]>
    (<["update_source" := update_source_tag]> (own_props h item)).

(** "the result contains every field of the input unchanged" *)
Definition passes_through (h : heap) (item : value) (h' : heap) (canonical : value) : Prop :=
  forall k v, own_props h item !! k = Some v -> own_props h' canonical !! k = Some v.

(** *** Inventory fetch *)



(** *** Order mapping *)

(** A payload with the customer relation and without shipments and
    payments. *)
Definition customer_only (h : heap) (body : value) : Prop :=
  exists embedded customer,
    own_props h body !! "_embedded" = Some embedded
    /\ own_props h embedded !! "fx:customer" = Some customer
    /\ nullish customer = false
    /\ own_props h embedded !! "fx:shipments" = None
    /\ own_props h embedded !! "fx:payments" = None.

(** The order has [shipping = {}] and [cc_exp = "undefined/undefined"]. *)
Definition bare_order (st : state) (order : loc) : Prop :=
  exists shipping,
    own_props (heap_of st) (VRef order) !! "shipping" = Some (VRef shipping)
    /\ heap_of st !! shipping = Some (OObj ∅)
    /\ own_props (heap_of st) (VRef order) !! "cc_exp"
       = Some (VStr "undefined/undefined").

(** The order's [shipping] after the mapping: an object of its own, made
    since the call, without link metadata. *)
Definition shipping_is_copy (before after : state) (order : loc) : Prop :=
  exists shipping,
    own_props (heap_of after) (VRef order) !! "shipping" = Some (VRef shipping)
    /\ length (heap_of before) <= shipping
    /\ exists props, heap_of after !! shipping = Some (OObj props)
                     /\ props !! "_links" = None.

(** "the caller's shipment object no longer contains its link metadata" *)
Definition links_deleted_in_place (after : state) (shipment : value) : Prop :=
  own_props (heap_of after) shipment !! "_links" = None.

End Spec.

(** ** A program logic for the state monad *)

Module Logic.

(** Weakest precondition of a computation: [Q] on a result, [E] on an
    exception. *)
Definition wp {A} (m : M A) (Q : A -> state -> Prop) (E : error -> state -> Prop)
    (st : state) : Prop :=
  match m st with
  | (Ok a, st') => Q a st'
  | (Throw e, st') => E e st'
  end.

(** The objects of [h0] are where they were, unchanged, and nothing has
    been sent beyond [s0]. *)
Definition keeps (h0 : heap) (s0 : list request) (st : state) : Prop :=
  sent st = s0 /\ h0 `prefix_of` heap_of st.

End Logic.
Import Logic.

(** ** Concrete configurations, items and payloads *)

Module Scenarios.

(** Stand-ins for the runtime; no scenario prints a number. *)
Definition number_to_string (n : float) : string := "NaN".

Definition stack : nat := 16.

Definition JSON_stringify (h : heap) (v : value) : result string := Ok "{}".

(** A server that answers every request with the JSON body [o]. *)
Definition answer (o : object) (req : request) (h : heap) : result value * heap :=
  (Ok (VRef (length h)), (h ++ [o])%list).

Definition adapter : DataStore.t :=
  {| DataStore.domain := "app.orderdesk.me";
     DataStore.api := "api/v2/";
     DataStore.credentials :=
       {| DataStore.id := VStr "12345"; DataStore.key := VStr "abcDEF123" |} |}.

Definition make_config (raw storeId apiKey : value) : config.t :=
  {| config.datastore :=
       {| config.credentials := raw;
          config.provider :=
            {| config.orderDesk :=
                 {| config.storeId := storeId; config.apiKey := apiKey |} |} |} |}.

Definition config_combined : config.t :=
  make_config (VStr "Store ID 12345 API Key abcDEF123") VUndef VUndef.

Definition config_malformed : config.t :=
  make_config (VStr "Store ID 1234 API Key abcDEF123") (VStr "54321") (VStr "secret").

Definition config_discrete : config.t :=
  make_config VUndef (VStr "54321") (VStr "secret").

Definition config_missing : config.t :=
  make_config VUndef (VStr "54321") VUndef.

Definition object_of (fields : list (string * value)) : object :=
  OObj (list_to_map fields).

(** An inventory: a valid item, an item without a name, the two as a
    batch, two codes, an item priced [NaN], an item priced ["9.99"], and a
    vendor record that already has [inventory] and [update_source]. *)
Definition inventory : state :=
  {| heap_of :=
       [ object_of [("id", VStr "1"); ("name", VStr "A"); ("code", VStr "SKU1");
                    ("price", VNum 0); ("stock", VNum 0)];
         object_of [("id", VStr "2"); ("code", VStr "SKU2");
                    ("price", VNum 1); ("stock", VNum 1)];
         OArr [VRef 0; VRef 1];
         OArr [VStr "SKU1"; VStr "SKU2"];
         object_of [("id", VStr "4"); ("name", VStr "D"); ("code", VStr "SKU4");
                    ("price", VNum nan); ("stock", VNum 0)];
         object_of [("id", VStr "5"); ("name", VStr "E"); ("code", VStr "SKU5");
                    ("price", VStr "9.99"); ("stock", VNum 0)];
         object_of [("id", VStr "6"); ("name", VStr "F"); ("code", VStr "SKU6");
                    ("price", VNum 2); ("stock", VNum 5);
                    ("inventory", VNum 7); ("update_source", VStr "import")] ];
     sent := [] |}.

(** Two order payloads over one customer: at 0 with a shipment that has
    link metadata, at 7 with neither shipments nor payments. *)
Definition orders : state :=
  {| heap_of :=
       [ object_of [("id", VNum 42); ("customer_email", VStr "a@example.com");
                    ("_embedded", VRef 1); ("total_order", VNum 10)];
         object_of [("fx:customer", VRef 2); ("fx:shipments", VRef 3);
                    ("fx:items", VRef 5)];
         object_of [("id", VNum 7); ("first_name", VStr "Ada");
                    ("last_name", VStr "Byron")];
         OArr [VRef 4];
         object_of [("_links", VRef 6); ("address1", VStr "1 Main St")];
         OArr [];
         object_of [("self", VStr "https://api.foxycart.com/shipments/1")];
         object_of [("id", VNum 43); ("_embedded", VRef 8)];
         object_of [("fx:customer", VRef 2); ("fx:items", VRef 5)] ];
     sent := [] |}.

End Scenarios.

(** ** Requests, payloads and orders

    What the operations send and what [createOrder] builds from a
    payload, named for the statements of the last part. *)

Module Props.

(** [Array.isArray(v)] in this heap. *)
Definition is_array (h : heap) (v : value) : bool :=
  match v with
  | VRef l => match h !! l with Some (OArr _) => true | _ => false end
  | _ => false
  end.

(** The name of an indexed property: a decimal numeral. *)
Definition is_index (k : string) : Prop :=
  forallb Regex.is_digit (list_ascii_of_string k) = true.

(** The characters a form-encoded query is made of. *)
Definition url_safe (c : ascii) : bool :=
  is_alnum c || bool_decide (c ∈ list_ascii_of_string "*-._+%").

(** The request of [updateInventoryItems] with this body. *)
Definition update_request (this : DataStore.t) (json : string) : request :=
  {| url := DataStore.buildEndpoint this "batch-inventory-items";
     method := "PUT";
     headers := DataStore.getDefaultHeader this;
     body := Some json |}.

(** The request of [fetchInventoryItems] with this joined text. *)
Definition codes_request (this : DataStore.t) (joined : string) : request :=
  {| url := DataStore.buildEndpoint this "inventory-items"
            +:+ "?code=" +:+ urlencode joined;
     method := "GET";
     headers := DataStore.getDefaultHeader this;
     body := None |}.

(** The request of [createOrder] with this body. *)
Definition order_request (this : DataStore.t) (json : string) : request :=
  {| url := DataStore.buildEndpoint this "orders";
     method := "POST";
     headers := DataStore.getDefaultHeader this;
     body := Some json |}.

(** The outcome of sending [req] from [st]. *)
Definition sent_from (fetch_json : request -> heap -> result value * heap)
    (req : request) (st : state) : result value * state :=
  (fst (fetch_json req (heap_of st)),
   {| heap_of := snd (fetch_json req (heap_of st));
      sent := (sent st ++ [req])%list |}).

(** A request of this adapter: its headers, and a URL under its API. *)
Definition own_request (this : DataStore.t) (req : request) : Prop :=
  headers req = DataStore.getDefaultHeader this
  /\ exists rest, url req = DataStore.buildEndpoint this rest.

(** Nothing more was sent, or one request of this adapter. *)
Definition sent_at_most_one (this : DataStore.t) (st st' : state) : Prop :=
  sent st' = sent st
  \/ exists req, sent st' = (sent st ++ [req])%list /\ own_request this req.

End Props.

Module Payload.

(** A value that is not a dangling reference. *)
Definition valid (h : heap) (v : value) : bool :=
  match v with
  | VRef l => bool_decide (l < length h)
  | _ => true
  end.

Definition closed (h : heap) (o : object) : bool :=
  match o with
  | OObj props => bool_decide (map_Forall (fun _ v => valid h v = true) props)
  | OArr elems => forallb (valid h) elems
  end.

(** Every reference held in the heap points into the heap. *)
Definition well_formed (h : heap) : bool := forallb (closed h) h.

Definition is_ref (v : value) : bool :=
  match v with
  | VRef _ => true
  | _ => false
  end.

(** ToString of a primitive. *)
Definition text (print : float -> string) (v : value) : string :=
  match v with
  | VUndef => "undefined"
  | VNull => "null"
  | VBool b => if b then "true" else "false"
  | VNum n => print n
  | VStr s => s
  | VRef _ => ""
  end.

(** [body._embedded[k]] in the caller's heap. *)
Definition relation (h : heap) (body : value) (k : string) : value :=
  field h (field h body "_embedded") k.

(** The first entry of a relation, when the relation is truthy. *)
Definition first_of (h : heap) (body : value) (k : string) : option value :=
  if truthy (relation h body k) then Some (field h (relation h body k) "0") else None.

(** A field of the first entry; of [{}] when there is no relation. *)
Definition first_field (h : heap) (body : value) (rel k : string) : value :=
  match first_of h body rel with
  | Some entry => field h entry k
  | None => VUndef
  end.

(** The fields copied from the first entry. *)
Definition first_props (h : heap) (body : value) (rel : string) : gmap string value :=
  match first_of h body rel with
  | Some entry => own_props h entry
  | None => ∅
  end.

Definition assignments (l : list (string * value)) : gmap string value :=
  foldl (fun m p => <[fst p := snd p]> m) ∅ l.

Definition customer_fields (of_customer : string -> value) : gmap string value :=
  assignments [("first_name", of_customer "first_name");
               ("last_name", of_customer "last_name")].

(** The order, assignment by assignment, from what is read of the body,
    of the customer and of the payment. *)
Definition order_fields (print : float -> string)
    (of_body of_customer of_payment : string -> value)
    (items : value) (customer shipping : loc) : gmap string value :=
  assignments
    [("id", of_body "id");
     ("email", of_body "customer_email");
     ("customer", VRef customer);
     ("shipping", VRef shipping);
     ("source_name", VStr "Foxy.io");
     ("customer_id", of_customer "id");
     ("product_total", of_body "total_item_price");
     ("shipping_total", of_body "total_shipping");
     ("tax_total", of_body "total_tax");
     ("discount_total", of_body "total_discount");
     ("order_total", of_body "total_order");
     ("cc_number_masked", of_payment "cc_number_masked");
     ("cc_exp", VStr (text print (of_payment "cc_exp_month") +:+ "/"
                      +:+ text print (of_payment "cc_exp_year")));
     ("processor_response", of_payment "processor_response");
     ("payment_sattus", VUndef);
     ("payment_type", of_payment "cc_type");
     ("order_items", items)].

Local Open Scope M_scope.

(** Lines 128 to 152 of [createOrder], once the relations are read. *)
Definition createOrder_fill (number_to_string : float -> string) (stack : nat)
    (body fxCustomer fxShipment fxPayment fxItems : value) : M loc :=
  let* first_name := read (fun h => get h fxCustomer "first_name") in
  let* last_name := read (fun h => get h fxCustomer "last_name") in
  let* customer :=
    alloc (OObj (<["last_name" := last_name]> (<["first_name" := first_name]> ∅))) in
  let* spread := read (fun h => Ok (own_props h fxShipment)) in
  let* shipping := alloc (OObj spread) in
  delete_prop shipping "_links" ;;
  let* order := alloc (OObj ∅) in
  DataStore.assign order "id" body "id" ;;
  DataStore.assign order "email" body "customer_email" ;;
  set_prop order "customer" (VRef customer) ;;
  set_prop order "shipping" (VRef shipping) ;;
  set_prop order "source_name" (VStr "Foxy.io") ;;
  DataStore.assign order "customer_id" fxCustomer "id" ;;
  DataStore.assign order "product_total" body "total_item_price" ;;
  DataStore.assign order "shipping_total" body "total_shipping" ;;
  DataStore.assign order "tax_total" body "total_tax" ;;
  DataStore.assign order "discount_total" body "total_discount" ;;
  DataStore.assign order "order_total" body "total_order" ;;
  DataStore.assign order "cc_number_masked" fxPayment "cc_number_masked" ;;
  let* month := read (fun h => get h fxPayment "cc_exp_month") in
  let* month_s := read (fun h => ToString number_to_string stack h month) in
  let* year := read (fun h => get h fxPayment "cc_exp_year") in
  let* year_s := read (fun h => ToString number_to_string stack h year) in
  set_prop order "cc_exp" (VStr (month_s +:+ "/" +:+ year_s)) ;;
  DataStore.assign order "processor_response" fxPayment "processor_response" ;;
  DataStore.assign order "payment_sattus" (VRef order) "status" ;;
  DataStore.assign order "payment_type" fxPayment "cc_type" ;;
  set_prop order "order_items" fxItems ;;
  ret order.


(** A payload that [createOrder] can map: a customer, a first payment
    that is not null when there are payments, and an expiry made of
    primitives. *)
Definition mappable (h : heap) (body : value) : Prop :=
  well_formed h = true /\ valid h body = true
  /\ nullish (relation h body "fx:customer") = false
  /\ match first_of h body "fx:payments" with
     | Some payment => nullish payment = false
     | None => True
     end
  /\ is_ref (first_field h body "fx:payments" "cc_exp_month") = false
  /\ is_ref (first_field h body "fx:payments" "cc_exp_year") = false.

(** What the mapping leaves in the heap and returns. *)
Definition mapped (print : float -> string) (st : state) (body : value)
    (order : loc) (st' : state) : Prop :=
  let h := heap_of st in
  exists customer shipping,
    sent st' = sent st /\ h `prefix_of` heap_of st'
    /\ length h <= customer /\ length h <= shipping /\ length h <= order
    /\ heap_of st' !! order
       = Some (OObj (order_fields print (field h body)
                       (field h (relation h body "fx:customer"))
                       (first_field h body "fx:payments")
                       (relation h body "fx:items") customer shipping))
    /\ heap_of st' !! customer
       = Some (OObj (customer_fields (field h (relation h body "fx:customer"))))
    /\ heap_of st' !! shipping
       = Some (OObj (delete "_links" (first_props h body "fx:shipments"))).

(** A payload without a customer, or whose first payment is null or
    missing from a payments value that is truthy (an empty array). *)
Definition unmappable (h : heap) (body : value) : Prop :=
  nullish (relation h body "fx:customer") = true
  \/ exists payment, first_of h body "fx:payments" = Some payment
                     /\ nullish payment = true.

(** The names of the fields of an order. *)
Definition order_keys : gset string :=
  list_to_set ["id"; "email"; "customer"; "shipping"; "source_name"; "customer_id";
               "product_total"; "shipping_total"; "tax_total"; "discount_total";
               "order_total"; "cc_number_masked"; "cc_exp"; "processor_response";
               "payment_sattus"; "payment_type"; "order_items"].

(** The caller's first shipment has the fields it had, and the order's
    [shipping] is a new object with those fields, [_links] removed: a
    shallow copy, the values of the fields being the shipment's own. *)
Definition shipping_is_shallow_copy (before after : state) (body : value)
    (order : loc) : Prop :=
  first_props (heap_of after) body "fx:shipments"
  = first_props (heap_of before) body "fx:shipments"
  /\ exists shipping,
       own_props (heap_of after) (VRef order) !! "shipping" = Some (VRef shipping)
       /\ length (heap_of before) <= shipping
       /\ heap_of after !! shipping
          = Some (OObj (delete "_links"
                          (first_props (heap_of before) body "fx:shipments"))).

End Payload.

(** ** More configurations, batches and payloads *)

Module Cases.

(** A transport that rejects every request. *)
Definition refuse (req : request) (h : heap) : result value * heap :=
  (Throw (Rejected "connection refused"), h).

(** [credentials: true] *)
Definition config_boolean : config.t :=
  Scenarios.make_config (VBool true) (VStr "54321") (VStr "secret").

(** The combined string followed by a space. *)
Definition config_trailing : config.t :=
  Scenarios.make_config (VStr "Store ID 12345 API Key abcDEF123 ")
    (VStr "54321") (VStr "secret").

(** A batch of two valid items at 2; the codes ["A,B"; "C"] at 3 and
    ["A"; "B"; "C"] at 4. *)
Definition batch : state :=
  {| heap_of :=
       [ Scenarios.object_of
           [("id", VStr "1"); ("name", VStr "A"); ("code", VStr "SKU1");
            ("price", VNum 0); ("stock", VNum 0)];
         Scenarios.object_of
           [("id", VStr "5"); ("name", VStr "E"); ("code", VStr "SKU5");
            ("price", VStr "9.99"); ("stock", VNum 3)];
         OArr [VRef 0; VRef 1];
         OArr [VStr "A,B"; VStr "C"];
         OArr [VStr "A"; VStr "B"; VStr "C"] ];
     sent := [] |}.

(** Two order payloads over one customer: at 0 with a shipment and a
    card payment, at 9 with [fx:payments: []]. *)
Definition paid_orders : state :=
  {| heap_of :=
       [ Scenarios.object_of
           [("id", VNum 42); ("customer_email", VStr "a@example.com");
            ("_embedded", VRef 1); ("total_order", VNum 10)];
         Scenarios.object_of
           [("fx:customer", VRef 2); ("fx:shipments", VRef 3);
            ("fx:payments", VRef 5); ("fx:items", VRef 7)];
         Scenarios.object_of
           [("id", VNum 7); ("first_name", VStr "Ada"); ("last_name", VStr "Byron")];
         OArr [VRef 4];
         Scenarios.object_of [("_links", VRef 8); ("address1", VStr "1 Main St")];
         OArr [VRef 6];
         Scenarios.object_of
           [("cc_number_masked", VStr "xxxx4242"); ("cc_exp_month", VStr "12");
            ("cc_exp_year", VStr "2030"); ("cc_type", VStr "visa");
            ("processor_response", VStr "approved"); ("status", VStr "paid")];
         OArr [];
         Scenarios.object_of [("self", VStr "https://api.foxycart.com/shipments/1")];
         Scenarios.object_of [("id", VNum 43); ("_embedded", VRef 10)];
         Scenarios.object_of
           [("fx:customer", VRef 2); ("fx:payments", VRef 7); ("fx:items", VRef 7)] ];
     sent := [] |}.

End Cases.

(** * Proofs *)

Local Open Scope list_scope.

(** ** The pattern *)

Module RegexFacts.
Import Regex.

Abbreviation chars := list_ascii_of_string.

Lemma chars_app (a b : string) : chars (a +:+ b) = chars a ++ chars b.
Proof. induction a as [|c a IH]; simpl; [done | by rewrite IH]. Qed.

Lemma chars_inj (a b : string) : chars a = chars b -> a = b.
Proof.
  intros E.
  rewrite <- (string_of_list_ascii_of_string a), <- (string_of_list_ascii_of_string b).
  by rewrite E.
Qed.

Lemma chars_of_list (l : list ascii) : chars (string_of_list_ascii l) = l.
Proof. apply list_ascii_of_string_of_list_ascii. Qed.

Lemma literal_app (p s : list ascii) : literal p (p ++ s) = Some s.
Proof. induction p as [|a p IH]; simpl; [done | by rewrite Ascii.eqb_refl]. Qed.

Lemma literal_Some (p s r : list ascii) : literal p s = Some r -> s = p ++ r.
Proof.
  revert s. induction p as [|a p IH]; intros [|b s]; simpl; try congruence.
  destruct (Ascii.eqb_spec a b) as [->|]; [|done].
  intros H. by rewrite (IH _ H).
Qed.

Lemma match_here_sound s d r :
  match_here s = Some (d, r) ->
  s = subject d r /\ length d = 5 /\ forallb is_digit d = true
  /\ r <> [] /\ forallb is_alnum r = true.
Proof.
  unfold match_here.
  destruct (literal _ s) as [r1|] eqn:E1; [|done].
  destruct (_ && _) eqn:E2; [|done].
  destruct (literal _ (drop 5 r1)) as [r2|] eqn:E3; [|done].
  destruct r2 as [|c r2]; [done|].
  destruct (forallb is_alnum (c :: r2)) eqn:E4; [|done].
  intros [= <- <-].
  apply andb_true_iff in E2 as [E2 E2']. apply Nat.eqb_eq in E2.
  apply literal_Some in E1, E3.
  split_and!; try done.
  unfold subject. rewrite E1. f_equal.
  rewrite <- (take_drop 5 r1) at 1. by rewrite E3.
Qed.

Lemma match_here_complete i k :
  length i = 5 -> forallb is_digit i = true ->
  k <> [] -> forallb is_alnum k = true ->
  match_here (subject i k) = Some (i, k).
Proof.
  intros Li Di Nk Ak. unfold match_here, subject.
  rewrite literal_app.
  rewrite take_app_length' by done. rewrite drop_app_length' by done.
  rewrite Li, Di. simpl.
  destruct k; [done|]. by rewrite Ak.
Qed.

(** The pattern cannot start before a later match: the last space of
    the separator would fall in the alphanumeric tail. *)
Lemma match_here_not_earlier c p i k :
  length i = 5 -> match_here (c :: p ++ subject i k) = None.
Proof.
  intros Li.
  destruct (match_here _) as [[d r]|] eqn:E; [|done]. exfalso.
  apply match_here_sound in E as (E & Ld & _ & _ & Ar).
  assert (Hsp : (c :: p ++ subject i k) !! (23 + length p) = Some " "%char).
  { replace (23 + length p) with (S (length p + 22)) by lia.
    simpl. rewrite lookup_app_r by lia.
    replace (length p + 22 - length p) with 22 by lia.
    do 6 (destruct i as [|? i]; try done). }
  rewrite E in Hsp. unfold subject in Hsp.
  rewrite !app_assoc in Hsp. rewrite lookup_app_r in Hsp.
  2:{ rewrite !length_app, Ld. simpl. lia. }
  apply list_elem_of_lookup_2 in Hsp.
  rewrite forallb_forall in Ar. apply list_elem_of_In in Hsp.
  by apply Ar in Hsp.
Qed.

Lemma exec_eq s :
  exec s = match match_here s with
           | Some (g1, g2) => Some [s; g1; g2]
           | None => match s with [] => None | _ :: s' => exec s' end
           end.
Proof. by destruct s. Qed.

Lemma exec_complete p i k :
  length i = 5 -> forallb is_digit i = true ->
  k <> [] -> forallb is_alnum k = true ->
  exec (p ++ subject i k) = Some [subject i k; i; k].
Proof.
  intros Li Di Nk Ak. induction p as [|c p IH].
  - by rewrite app_nil_l, exec_eq, match_here_complete.
  - by rewrite <- app_comm_cons, exec_eq, match_here_not_earlier.
Qed.

Lemma exec_sound s m :
  exec s = Some m ->
  exists p d r,
    s = p ++ subject d r /\ m = [subject d r; d; r]
    /\ length d = 5 /\ forallb is_digit d = true
    /\ r <> [] /\ forallb is_alnum r = true.
Proof.
  revert m. induction s as [|c s IH]; intros m; rewrite exec_eq.
  - destruct (match_here []) as [[d r]|] eqn:E; [|done].
    by apply match_here_sound in E as ([=] & _).
  - destruct (match_here (c :: s)) as [[d r]|] eqn:E.
    + intros [= <-]. apply match_here_sound in E as (E & ?).
      exists [], d, r. by rewrite <- E.
    + intros H. destruct (IH _ H) as (p & d & r & -> & ?).
      by exists (c :: p), d, r.
Qed.

Lemma is_store_id_chars i :
  Spec.is_store_id i = true ->
  length (chars i) = 5 /\ forallb is_digit (chars i) = true.
Proof.
  unfold Spec.is_store_id. rewrite andb_true_iff, Nat.eqb_eq. tauto.
Qed.

Lemma is_api_key_chars k :
  Spec.is_api_key k = true ->
  chars k <> [] /\ forallb is_alnum (chars k) = true.
Proof.
  unfold Spec.is_api_key. rewrite andb_true_iff. intros [N A]. split; [|done].
  by destruct k.
Qed.

Lemma chars_combined before i k :
  chars (Spec.combined before i k) = chars before ++ subject (chars i) (chars k).
Proof. unfold Spec.combined, subject. by rewrite !chars_app. Qed.

Lemma string_match_complete before i k :
  Spec.is_store_id i = true -> Spec.is_api_key k = true ->
  string_match (Spec.combined before i k)
  = Some [Spec.combined "" i k; i; k].
Proof.
  intros [Li Di]%is_store_id_chars [Nk Ak]%is_api_key_chars.
  unfold string_match. rewrite chars_combined, exec_complete by done.
  change (Some [string_of_list_ascii (subject (chars i) (chars k));
                string_of_list_ascii (chars i); string_of_list_ascii (chars k)]
          = Some [Spec.combined "" i k; i; k]).
  rewrite !string_of_list_ascii_of_string. do 2 f_equal.
  apply chars_inj. by rewrite chars_of_list, chars_combined.
Qed.

Lemma string_match_sound s m :
  string_match s = Some m ->
  exists before i k,
    s = Spec.combined before i k
    /\ Spec.is_store_id i = true /\ Spec.is_api_key k = true
    /\ m = [Spec.combined "" i k; i; k].
Proof.
  unfold string_match. destruct (exec (chars s)) as [m'|] eqn:E; [|done].
  intros [= <-].
  apply exec_sound in E as (p & d & r & E & -> & Ld & Dd & Nr & Ar).
  exists (string_of_list_ascii p), (string_of_list_ascii d), (string_of_list_ascii r).
  split_and!.
  - apply chars_inj. by rewrite chars_combined, !chars_of_list.
  - unfold Spec.is_store_id. rewrite chars_of_list, Ld, Dd. done.
  - unfold Spec.is_api_key. rewrite chars_of_list, Ar.
    by destruct r.
  - change ([string_of_list_ascii (subject d r);
             string_of_list_ascii d; string_of_list_ascii r]
            = [Spec.combined "" (string_of_list_ascii d) (string_of_list_ascii r);
               string_of_list_ascii d; string_of_list_ascii r]).
    f_equal. apply chars_inj.
    by rewrite chars_combined, !chars_of_list.
Qed.

Lemma string_match_None s :
  (forall before i k,
      Spec.is_store_id i = true -> Spec.is_api_key k = true ->
      s <> Spec.combined before i k) ->
  string_match s = None.
Proof.
  intros H. destruct (string_match s) as [m|] eqn:E; [|done].
  apply string_match_sound in E as (before & i & k & -> & Hi & Hk & _).
  by destruct (H before i k Hi Hk).
Qed.

Lemma string_match_None_inv s before i k :
  string_match s = None ->
  Spec.is_store_id i = true -> Spec.is_api_key k = true ->
  s <> Spec.combined before i k.
Proof.
  intros E Hi Hk ->. by rewrite string_match_complete in E.
Qed.

End RegexFacts.

(** ** Credentials *)

Module CredentialFacts.
Import RegexFacts.

Lemma parse_matching cfg i k :
  Spec.combined_matches cfg i k ->
  DataStore.parseConfigCredentials cfg
  = Ok {| DataStore.id := VStr i; DataStore.key := VStr k |}.
Proof.
  intros (before & E & Hi & Hk).
  unfold DataStore.parseConfigCredentials. fold (Spec.raw_credentials cfg).
  rewrite E.
  assert (truthy (VStr (Spec.combined before i k)) = true) as ->.
  { unfold Spec.combined. simpl. destruct before; [|done].
    apply is_store_id_chars in Hi as [Li _]. by destruct i. }
  simpl. by rewrite string_match_complete.
Qed.

Lemma parse_fallback cfg :
  Spec.combined_absent_or_malformed cfg ->
  DataStore.parseConfigCredentials cfg = Ok (Spec.discrete_credentials cfg).
Proof.
  unfold DataStore.parseConfigCredentials. fold (Spec.raw_credentials cfg).
  intros [-> | (s & -> & H)]; [done|].
  destruct (truthy (VStr s)); [|done].
  simpl. by rewrite string_match_None.
Qed.

(** When the combined string gives nothing, parsing either falls back to
    the discrete fields or throws on a subject that is not a string. *)
Lemma parse_without_match cfg :
  (forall i k, ~ Spec.combined_matches cfg i k) ->
  DataStore.parseConfigCredentials cfg = Ok (Spec.discrete_credentials cfg)
  \/ DataStore.parseConfigCredentials cfg = Throw TypeError.
Proof.
  intros H. unfold DataStore.parseConfigCredentials.
  fold (Spec.raw_credentials cfg).
  destruct (truthy (Spec.raw_credentials cfg)) eqn:T; [|by left].
  destruct (Spec.raw_credentials cfg) as [| | | |s|] eqn:E; try by right.
  left. simpl. rewrite string_match_None; [done|].
  intros before i k Hi Hk ->. apply (H i k). by exists before.
Qed.

Lemma setCredentials_missing cfg :
  DataStore.parseConfigCredentials cfg = Ok (Spec.discrete_credentials cfg) ->
  ~ Spec.discrete_present cfg ->
  DataStore.setCredentials cfg
  = Throw (Error DataStore.missing_credentials None).
Proof.
  intros E N. unfold DataStore.setCredentials. rewrite E. cbn [bind].
  unfold Spec.discrete_present in N.
  destruct (truthy (DataStore.key _)) eqn:K, (truthy (DataStore.id _)) eqn:I;
    try done.
  by destruct N.
Qed.

End CredentialFacts.

(** ** Property access and validation *)

Module ValidationFacts.

Lemma get_nullish h v k : nullish v = true -> get h v k = Throw TypeError.
Proof. unfold get. by intros ->. Qed.

Lemma get_ok h v k : nullish v = false -> get h v k = Ok (field h v k).
Proof. unfold get. by intros ->. Qed.

Lemma own_props_nullish h v k x : own_props h v !! k = Some x -> nullish v = false.
Proof. by destruct v. Qed.

Lemma validateInventoryItem_eq h item :
  DataStore.validateInventoryItem h item
  = if nullish item then Throw TypeError else Ok (Spec.accepts h item).
Proof.
  unfold DataStore.validateInventoryItem, Spec.accepts, Spec.truthy_or_zero.
  destruct (nullish item) eqn:N.
  - by rewrite get_nullish.
  - rewrite !get_ok by done. unfold and_then, or_else. cbn [bind].
    destruct (truthy (field h item "id")) eqn:Tid; cbn [bind andb];
      [|by rewrite Tid].
    destruct (truthy (field h item "name")) eqn:Tname; cbn [bind andb];
      [|by rewrite Tname].
    destruct (truthy (field h item "code")) eqn:Tcode; cbn [bind andb];
      [|by rewrite Tcode].
    assert (Hstock :
      bind (if truthy (field h item "stock")
            then Ok (field h item "stock")
            else Ok (VBool (strict_equals (field h item "stock") (VNum 0))))
           (fun v => Ok (truthy v))
      = Ok (truthy (field h item "stock")
            || strict_equals (field h item "stock") (VNum 0))).
    { destruct (truthy (field h item "stock")) eqn:Ts; cbn [bind orb truthy];
        by rewrite ?Ts. }
    destruct (truthy (field h item "price")) eqn:Tp; cbn [bind orb andb truthy].
    + by rewrite Tp.
    + destruct (strict_equals (field h item "price") (VNum 0)); [done|].
      by cbn [bind truthy].
Qed.

Lemma validateInventoryItem_throws h item e :
  DataStore.validateInventoryItem h item = Throw e -> e = TypeError.
Proof. rewrite validateInventoryItem_eq. destruct (nullish item); congruence. Qed.

Lemma accepts_not_nullish h item : Spec.accepts h item = true -> nullish item = false.
Proof. by destruct item. Qed.

Lemma accepts_missing h item :
  Spec.missing_required h item -> Spec.accepts h item = false.
Proof.
  unfold Spec.accepts, field.
  intros [-> | [-> | ->]]; cbn [default truthy andb].
  - done.
  - by rewrite andb_false_r.
  - by rewrite andb_false_r.
Qed.

End ValidationFacts.

(** ** Running the state monad *)

Module MonadFacts.

Lemma bindM_ok {A B} (m : M A) (k : A -> M B) st a st' :
  m st = (Ok a, st') -> bindM m k st = k a st'.
Proof. unfold bindM. by intros ->. Qed.

Lemma bindM_throw {A B} (m : M A) (k : A -> M B) st e st' :
  m st = (Throw e, st') -> bindM m k st = (Throw e, st').
Proof. unfold bindM. by intros ->. Qed.

Lemma read_ok {A} (f : heap -> result A) st a :
  f (heap_of st) = Ok a -> read f st = (Ok a, st).
Proof. unfold read. by intros ->. Qed.

Lemma read_throw {A} (f : heap -> result A) st e :
  f (heap_of st) = Throw e -> read f st = (Throw e, st).
Proof. unfold read. by intros ->. Qed.

End MonadFacts.

(** ** Conversions to string and array traversals *)

Module ConversionFacts.

Lemma traverse_throw {A B} (f : A -> result B) l e :
  traverse f l = Throw e -> exists x, x ∈ l /\ f x = Throw e.
Proof.
  induction l as [|x l IH]; simpl; [done|].
  destruct (f x) as [y|e'] eqn:E.
  - destruct (traverse f l) as [ys|e'']; [done|].
    intros [= <-]. destruct IH as (x' & ? & ?); [done|].
    exists x'. split; [by right | done].
  - intros [= <-]. exists x. split; [by left | done].
Qed.

Lemma ToString_throws print depth h v e :
  ToString print depth h v = Throw e -> Spec.engine_error e.
Proof.
  revert v e. induction depth as [|d IH]; intros [| | | | |l] e; simpl; try done.
  - intros [= <-]. by right.
  - destruct (h !! l) as [[props|elems]|]; [| |done].
    + destruct (props !! "toString"); [|done]. intros [= <-]. by left.
    + destruct (traverse _ elems) as [parts|e'] eqn:E; [done|].
      intros [= <-]. apply traverse_throw in E as (x & _ & E).
      destruct x; try done; by apply IH in E.
Qed.

Lemma ToString_undefined print d h : ToString print d h VUndef = Ok "undefined".
Proof. by destruct d. Qed.

Lemma join_throws print depth h v e :
  join print depth h v = Throw e -> Spec.engine_error e.
Proof.
  unfold join. destruct v as [| | | | |l]; try (intros [= <-]; by left).
  destruct (h !! l) as [[|]|] eqn:E; try (intros [= <-]; by left).
  apply ToString_throws.
Qed.

Lemma traverse_strings print d h (codes : list string) :
  traverse (fun x => match x with
                     | VUndef | VNull => Ok ""
                     | _ => ToString print d h x
                     end) (VStr <$> codes) = Ok codes.
Proof.
  induction codes as [|c codes IH]; [done|].
  cbn [fmap list_fmap traverse]. fold (fmap (M := list) VStr codes).
  rewrite IH. by destruct d.
Qed.

Lemma join_strings print stack h l (codes : list string) :
  h !! l = Some (OArr (VStr <$> codes)) ->
  join print stack h (VRef l) = Ok (String.concat "," codes).
Proof.
  intros Hl. unfold join. rewrite Hl. cbn [ToString]. rewrite Hl.
  by rewrite traverse_strings.
Qed.

Lemma filter_result_throw {A} (keep : A -> result bool) l e :
  filter_result keep l = Throw e -> exists x, x ∈ l /\ keep x = Throw e.
Proof.
  induction l as [|x l IH]; simpl; [done|].
  destruct (keep x) as [b|e'] eqn:E.
  - destruct (filter_result keep l) as [ys|e'']; [done|].
    intros [= <-]. destruct IH as (x' & ? & ?); [done|].
    exists x'. split; [by right | done].
  - intros [= <-]. exists x. split; [by left | done].
Qed.

Lemma filter_result_keeps {A} (keep : A -> result bool) l ys x :
  filter_result keep l = Ok ys -> x ∈ l -> keep x = Ok true -> x ∈ ys.
Proof.
  revert ys. induction l as [|y l IH]; intros ys; simpl; [by intros _ ?%elem_of_nil|].
  destruct (keep y) as [b|] eqn:E; [|done].
  destruct (filter_result keep l) as [zs|]; [|done].
  intros [= <-] [->|Hin]%elem_of_cons K.
  - rewrite K in E. injection E as <-. by left.
  - specialize (IH zs eq_refl Hin K). destruct b; [by right | done].
Qed.

Lemma filter_result_all_ok {A} (keep : A -> result bool) l ys x :
  filter_result keep l = Ok ys -> x ∈ l -> exists b, keep x = Ok b.
Proof.
  revert ys. induction l as [|y l IH]; intros ys; simpl; [by intros _ ?%elem_of_nil|].
  destruct (keep y) as [b|] eqn:E; [|done].
  destruct (filter_result keep l) as [zs|]; [|done].
  intros _ [->|Hin]%elem_of_cons; eauto.
Qed.

End ConversionFacts.

(** ** Inventory update *)

Module UpdateFacts.
Import ValidationFacts MonadFacts ConversionFacts.

Section Update.

Variable number_to_string : float -> string.
Variable stack : nat.
Variable JSON_stringify : heap -> value -> result string.
Variable fetch_json : request -> heap -> result value * heap.
Variable this : DataStore.t.

(** With an item that does not pass, the call throws with nothing sent,
    and what it throws is fixed. *)
Lemma updateInventoryItems_rejects st l elems item :
  heap_of st !! l = Some (OArr elems) ->
  item ∈ elems ->
  DataStore.validateInventoryItem (heap_of st) item <> Ok true ->
  exists e st',
    DataStore.updateInventoryItems number_to_string stack JSON_stringify
      fetch_json this (VRef l) st = (Throw e, st')
    /\ sent st' = sent st
    /\ (e = Spec.invalid_items_error \/ Spec.engine_error e).
Proof.
  intros Hl Hin Hbad.
  unfold DataStore.updateInventoryItems, DataStore.Array_filter.
  set (keep := fun (h : heap) (i : value) =>
                 bind (DataStore.validateInventoryItem h i) (fun ok => Ok (negb ok))).
  destruct (filter_result (keep (heap_of st)) elems) as [kept|e] eqn:F.
  - assert (Hkept : item ∈ kept).
    { eapply filter_result_keeps; [done..|].
      destruct (filter_result_all_ok _ _ _ _ F Hin) as [b Hb].
      unfold keep in *.
      destruct (DataStore.validateInventoryItem (heap_of st) item) as [[]|]; done. }
    set (st1 := extend st (OArr kept)).
    assert (Hnew : heap_of st1 !! length (heap_of st) = Some (OArr kept)).
    { by apply list_lookup_middle. }
    rewrite (bindM_ok _ _ st (length (heap_of st)) st1).
    2:{ erewrite bindM_ok; [reflexivity|]. apply read_ok. by rewrite Hl. }
    rewrite (bindM_ok _ _ st1 (length kept) st1).
    2:{ unfold DataStore.Array_length. apply read_ok. by rewrite Hnew. }
    destruct kept as [|x kept]; [by apply elem_of_nil in Hkept|].
    cbn [length Nat.ltb Nat.leb].
    destruct (join number_to_string stack (heap_of st1) (VRef (length (heap_of st))))
      as [joined|e] eqn:J.
    + exists Spec.invalid_items_error, st1.
      erewrite bindM_ok; [|by apply read_ok]. split_and!; [done..|by left].
    + exists e, st1. erewrite bindM_throw; [|by apply read_throw].
      split_and!; [done..|]. right. by eapply join_throws.
  - exists e, st. erewrite bindM_throw.
    2:{ erewrite bindM_throw; [reflexivity|]. apply read_throw. by rewrite Hl. }
    split_and!; [done..|]. right. left.
    apply filter_result_throw in F as (x & _ & F). unfold keep in F.
    destruct (DataStore.validateInventoryItem (heap_of st) x) eqn:V; [done|].
    injection F as <-. by eapply validateInventoryItem_throws.
Qed.

End Update.

End UpdateFacts.

(** ** Canonical conversion *)

Module CanonicalFacts.
Import ValidationFacts MonadFacts.

Lemma own_props_new h props :
  own_props (h ++ [OObj props]) (VRef (length h)) = props.
Proof. unfold own_props. by rewrite list_lookup_middle. Qed.

Lemma convertToCanonical_run st item :
  nullish item = false ->
  DataStore.convertToCanonical item st
  = (Ok (VRef (length (heap_of st))),
     extend st (OObj (Spec.canonical_props (heap_of st) item))).
Proof.
  intros N. unfold DataStore.convertToCanonical.
  erewrite bindM_ok; [|by apply read_ok].
  erewrite bindM_ok; [|by apply read_ok, get_ok].
  reflexivity.
Qed.

Lemma canonical_props_other h item k :
  k <> "inventory" -> k <> "update_source" ->
  Spec.canonical_props h item !! k = own_props h item !! k.
Proof.
  intros. unfold Spec.canonical_props. by rewrite !lookup_insert_ne.
Qed.

Lemma canonical_props_inventory h item :
  Spec.canonical_props h item !! "inventory" = Some (field h item "stock").
Proof. unfold Spec.canonical_props. by rewrite lookup_insert_eq. Qed.

Lemma canonical_props_update_source h item :
  Spec.canonical_props h item !! "update_source" = Some Spec.update_source_tag.
Proof.
  unfold Spec.canonical_props. rewrite lookup_insert_ne by done.
  by rewrite lookup_insert_eq.
Qed.

Lemma canonical_props_again h item :
  let props := Spec.canonical_props h item in
  Spec.canonical_props (h ++ [OObj props]) (VRef (length h)) = props.
Proof.
  intros props. unfold Spec.canonical_props at 1.
  unfold field. rewrite own_props_new.
  assert (props !! "stock" = own_props h item !! "stock") as ->
    by by apply canonical_props_other.
  apply map_eq. intros k.
  destruct (decide (k = "inventory")) as [->|].
  { rewrite lookup_insert_eq. subst props. by rewrite canonical_props_inventory. }
  rewrite lookup_insert_ne by done.
  destruct (decide (k = "update_source")) as [->|].
  { rewrite lookup_insert_eq. subst props. by rewrite canonical_props_update_source. }
  by rewrite lookup_insert_ne.
Qed.

End CanonicalFacts.

(** ** Rules of the program logic *)

Module LogicFacts.

Section Rules.

Context {A B : Type}.
Implicit Types (Q : A -> state -> Prop) (E : error -> state -> Prop).

Lemma wp_bind (m : M A) (k : A -> M B) (R : B -> state -> Prop) E st :
  wp m (fun a st' => wp (k a) R E st') E st -> wp (bindM m k) R E st.
Proof. unfold wp, bindM. by destruct (m st) as [[a|e] st']. Qed.

Lemma wp_ret a Q E st : Q a st -> wp (ret a) Q E st.
Proof. done. Qed.

Lemma wp_read (f : heap -> result A) Q E st :
  match f (heap_of st) with
  | Ok a => Q a st
  | Throw e => E e st
  end -> wp (read f) Q E st.
Proof. unfold wp, read. by destruct (f (heap_of st)). Qed.

(** The rules name what is read or allocated, so that states stay small. *)
Lemma wp_pure (g : heap -> A) Q E st :
  (forall x, x = g (heap_of st) -> Q x st) ->
  wp (read (fun h => Ok (g h))) Q E st.
Proof. intros HQ. apply wp_read. by apply HQ. Qed.

Lemma wp_pure_eq (g : heap -> A) w Q E st :
  g (heap_of st) = w -> Q w st -> wp (read (fun h => Ok (g h))) Q E st.
Proof. intros <- HQ. apply wp_pure. by intros ? ->. Qed.

End Rules.

Lemma wp_get v k (Q : value -> state -> Prop) E st :
  (nullish v = true -> E TypeError st) ->
  (nullish v = false -> forall x, x = field (heap_of st) v k -> Q x st) ->
  wp (read (fun h => get h v k)) Q E st.
Proof.
  intros HE HQ. apply wp_read. unfold get.
  destruct (nullish v); [by apply HE | by apply HQ].
Qed.

Lemma wp_get_eq v k w (Q : value -> state -> Prop) E st :
  field (heap_of st) v k = w -> nullish v = false -> Q w st ->
  wp (read (fun h => get h v k)) Q E st.
Proof. intros <- N HQ. apply wp_get; [congruence|]. by intros _ ? ->. Qed.

Lemma wp_ToString_undefined print d (Q : string -> state -> Prop) E st :
  Q "undefined" st -> wp (read (fun h => ToString print d h VUndef)) Q E st.
Proof.
  intros HQ. apply wp_read. by rewrite ConversionFacts.ToString_undefined.
Qed.

Lemma wp_alloc o (Q : loc -> state -> Prop) E st :
  (forall l, l = length (heap_of st) -> Q l (extend st o)) ->
  wp (alloc o) Q E st.
Proof. intros HQ. by apply HQ. Qed.

Lemma wp_update f l (Q : unit -> state -> Prop) E st :
  Q tt (update st l f) -> wp (update_props f l) Q E st.
Proof. done. Qed.

Lemma length_extend st o : length (heap_of (extend st o)) = S (length (heap_of st)).
Proof. unfold extend. cbn [heap_of]. rewrite length_app. simpl. lia. Qed.

Lemma length_update st l f : length (heap_of (update st l f)) = length (heap_of st).
Proof. apply length_alter. Qed.

Lemma lookup_extend_new st o l :
  l = length (heap_of st) -> heap_of (extend st o) !! l = Some o.
Proof. intros ->. by apply list_lookup_middle. Qed.

Lemma lookup_extend_old st o l :
  l < length (heap_of st) -> heap_of (extend st o) !! l = heap_of st !! l.
Proof. intros. by apply lookup_app_l. Qed.

Lemma lookup_update_eq st l f :
  heap_of (update st l f) !! l = on_props f <$> heap_of st !! l.
Proof. apply list_lookup_alter_eq. Qed.

Lemma lookup_update_ne st l l' f :
  l <> l' -> heap_of (update st l f) !! l' = heap_of st !! l'.
Proof. apply list_lookup_alter_ne. Qed.

Lemma keeps_refl st : keeps (heap_of st) (sent st) st.
Proof. done. Qed.

Lemma keeps_length h0 s0 st : keeps h0 s0 st -> length h0 <= length (heap_of st).
Proof. intros [_ ?]. by apply prefix_length. Qed.

Lemma keeps_extend h0 s0 st o : keeps h0 s0 st -> keeps h0 s0 (extend st o).
Proof. intros [? ?]. split; [done|]. by apply prefix_app_r. Qed.

(** An update of an object allocated since leaves the old objects alone. *)
Lemma keeps_update h0 s0 st l f :
  keeps h0 s0 st -> length h0 <= l -> keeps h0 s0 (update st l f).
Proof.
  intros [? [ext E]] Hl. split; [done|]. unfold update. cbn [heap_of].
  rewrite E, alter_app_r_alt by done. by eexists.
Qed.

(** What is read from an object of the caller's heap does not change. *)
Lemma own_props_keeps h0 s0 st v k x :
  keeps h0 s0 st -> own_props h0 v !! k = Some x ->
  own_props (heap_of st) v = own_props h0 v.
Proof.
  intros [_ Hpre] Hx. destruct v as [| | | | |l]; try done.
  unfold own_props in *. destruct (h0 !! l) as [o|] eqn:E; [|done].
  by rewrite (prefix_lookup_Some _ _ _ _ E Hpre).
Qed.

Lemma field_keeps h0 s0 st v k0 x k :
  keeps h0 s0 st -> own_props h0 v !! k0 = Some x ->
  field (heap_of st) v k = field h0 v k.
Proof. intros. unfold field. by erewrite own_props_keeps. Qed.

End LogicFacts.
Import LogicFacts.

(** Lengths of heaps, in terms of the initial one. *)
Ltac len := rewrite ?length_update, ?length_extend.

Ltac keeps_tac :=
  repeat first
    [ apply keeps_refl
    | apply keeps_extend
    | apply keeps_update; [|lia] ].

(** Lookups in a heap built by [extend] and [update]. *)
Ltac heap_lookup :=
  repeat first
    [ rewrite lookup_update_eq
    | rewrite lookup_update_ne by (len; lia)
    | rewrite lookup_extend_new by (len; lia)
    | rewrite lookup_extend_old by (len; lia) ].

(** One step of symbolic execution along every path. *)
Ltac wp_step :=
  cbv beta;
  lazymatch goal with
  | |- wp (bindM _ _) _ _ _ => apply wp_bind
  | |- wp (ret _) _ _ _ => apply wp_ret
  | |- wp (read (fun h => get h _ _)) _ _ _ => apply wp_get; [intros _|intros _ ? _]
  | |- wp (read (fun h => Ok _)) _ _ _ => apply wp_pure; intros ? _
  | |- wp (read (fun h => ToString ?p ?d h ?v)) _ _ ?st =>
      apply wp_read; cbv beta; destruct (ToString p d (heap_of st) v)
  | |- wp (alloc _) _ _ _ =>
      apply wp_alloc; let l := fresh "l" in let Hl := fresh "Hl" in
                      intros l Hl; revert Hl; len; intros Hl
  | |- wp (update_props _ _) _ _ _ => apply wp_update
  | |- wp (set_prop _ _ _) _ _ _ => unfold set_prop
  | |- wp (delete_prop _ _) _ _ _ => unfold delete_prop
  | |- wp (DataStore.assign _ _ _ _) _ _ _ => unfold DataStore.assign
  | |- wp (DataStore.embedded _ _) _ _ _ => unfold DataStore.embedded
  | |- wp (DataStore.first_or_empty _ _) _ _ _ => unfold DataStore.first_or_empty
  | |- wp (if truthy ?v then _ else _) _ _ _ => destruct (truthy v)
  end.

(** Steps along one path.  Reading a field whose value is not needed: *)
Ltac get_any :=
  cbv beta; apply wp_bind;
  apply wp_get; [intros ?; first [congruence | discriminate] | intros _ ? _].

(** Reading a field whose value [tac] determines: *)
Ltac get_by tac :=
  cbv beta; apply wp_bind;
  eapply wp_get_eq; [tac | first [done | congruence] | ].

(** Reading a field that a new, empty object does not have: *)
Ltac get_missing :=
  cbv beta; apply wp_bind;
  apply (wp_get_eq _ _ VUndef);
  [ unfold field, own_props; heap_lookup; by rewrite lookup_empty | done | ].

Ltac new_object :=
  cbv beta; apply wp_bind;
  apply wp_alloc; let l := fresh "l" in let Hl := fresh "Hl" in
                  intros l Hl; revert Hl; len; intros Hl.

Ltac change_props :=
  cbv beta; apply wp_bind; apply wp_update.

(** [target.k = source.field] with a value that is not needed: *)
Ltac assign_any :=
  cbv beta; apply wp_bind; apply wp_bind;
  apply wp_get; [intros ?; first [congruence | discriminate] | intros _ ? _];
  cbv beta; apply wp_update.

(** ** Order mapping *)

Module OrderFacts.
Import ValidationFacts.

Lemma createOrder_mapping_wp number_to_string stack body st :
  wp (DataStore.createOrder_mapping number_to_string stack body)
     (fun order st' =>
        keeps (heap_of st) (sent st) st' /\ Spec.shipping_is_copy st st' order)
     (fun _ st' => keeps (heap_of st) (sent st) st')
     st.
Proof.
  unfold DataStore.createOrder_mapping.
  repeat wp_step; try (by keeps_tac).
  all: split; [by keeps_tac|].
  all: eexists; split_and!;
    [ unfold own_props; heap_lookup;
      cbn [fmap option_fmap option_map on_props];
      rewrite !lookup_insert_ne by done; apply lookup_insert_eq
    | lia
    | eexists; split;
      [ heap_lookup; cbn [fmap option_fmap option_map on_props]; reflexivity
      | apply lookup_delete_eq ] ].
Qed.

Lemma createOrder_mapping_customer_only number_to_string stack body st :
  Spec.customer_only (heap_of st) body ->
  wp (DataStore.createOrder_mapping number_to_string stack body)
     (fun order st' => Spec.bare_order st' order)
     (fun _ _ => False)
     st.
Proof.
  intros (emb & cust & Hb & Hc & Nc & Hs & Hp).
  pose proof (own_props_nullish _ _ _ _ Hb) as Nb.
  pose proof (own_props_nullish _ _ _ _ Hc) as Ne.
  assert (Fb : forall st', keeps (heap_of st) (sent st) st' ->
                           field (heap_of st') body "_embedded" = emb).
  { intros st' K.
    rewrite (field_keeps (heap_of st) (sent st) st' body "_embedded" emb) by done.
    unfold field. by rewrite Hb. }
  assert (Fe : forall st' k, keeps (heap_of st) (sent st) st' ->
                             field (heap_of st') emb k = field (heap_of st) emb k).
  { intros st' k K.
    by rewrite (field_keeps (heap_of st) (sent st) st' emb "fx:customer" cust). }
  assert (Fs : field (heap_of st) emb "fx:shipments" = VUndef)
    by (unfold field; by rewrite Hs).
  assert (Fp : field (heap_of st) emb "fx:payments" = VUndef)
    by (unfold field; by rewrite Hp).
  assert (Fc : field (heap_of st) emb "fx:customer" = cust)
    by (unfold field; by rewrite Hc).
  unfold DataStore.createOrder_mapping, DataStore.first_or_empty, DataStore.embedded,
    DataStore.assign, set_prop, delete_prop.
  (* fxCustomer *)
  apply wp_bind. get_by ltac:(apply Fb; keeps_tac).
  eapply wp_get_eq; [etransitivity; [apply Fe; keeps_tac | apply Fc] | done |].
  (* fxShipment *)
  apply wp_bind. apply wp_bind. get_by ltac:(apply Fb; keeps_tac).
  eapply wp_get_eq; [etransitivity; [apply Fe; keeps_tac | apply Fs] | done |].
  cbn [truthy]. new_object. apply wp_ret.
  (* fxPayment *)
  apply wp_bind. apply wp_bind. get_by ltac:(apply Fb; keeps_tac).
  eapply wp_get_eq; [etransitivity; [apply Fe; keeps_tac | apply Fp] | done |].
  cbn [truthy]. new_object. apply wp_ret.
  (* fxItems *)
  apply wp_bind. get_by ltac:(apply Fb; keeps_tac).
  apply wp_get; [intros ?; congruence | intros _ ? _].
  (* customer, shipping, order *)
  get_any. get_any. new_object.
  cbv beta; apply wp_bind;
    apply (wp_pure_eq _ ∅); [unfold own_props; by heap_lookup|].
  new_object. change_props. new_object.
  assign_any. assign_any. do 3 change_props. do 7 assign_any.
  (* cc_exp *)
  get_missing. cbv beta; apply wp_bind; apply wp_ToString_undefined.
  get_missing. cbv beta; apply wp_bind; apply wp_ToString_undefined.
  change_props. do 3 assign_any. change_props. apply wp_ret.
  exists l2. split_and!.
  - unfold own_props. heap_lookup. cbn [fmap option_fmap option_map on_props].
    rewrite !lookup_insert_ne by done. apply lookup_insert_eq.
  - heap_lookup. cbn [fmap option_fmap option_map on_props].
    by rewrite delete_empty.
  - unfold own_props. heap_lookup. cbn [fmap option_fmap option_map on_props].
    rewrite !lookup_insert_ne by done. apply lookup_insert_eq.
Qed.

End OrderFacts.

(** ** Payloads in a heap without dangling references *)

Module FillFacts.
Import Payload.

Lemma createOrder_mapping_eq print stack body :
  DataStore.createOrder_mapping print stack body
  = bindM (DataStore.embedded body "fx:customer") (fun fxCustomer =>
    bindM (DataStore.first_or_empty body "fx:shipments") (fun fxShipment =>
    bindM (DataStore.first_or_empty body "fx:payments") (fun fxPayment =>
    bindM (DataStore.embedded body "fx:items") (fun fxItems =>
    createOrder_fill print stack body fxCustomer fxShipment fxPayment fxItems)))).
Proof. reflexivity. Qed.

Lemma valid_lookup h l : valid h (VRef l) = true -> is_Some (h !! l).
Proof. intros V%bool_decide_eq_true. by apply lookup_lt_is_Some. Qed.

Lemma own_props_valid h0 s0 st v :
  keeps h0 s0 st -> valid h0 v = true -> own_props (heap_of st) v = own_props h0 v.
Proof.
  intros [_ Hpre] V. destruct v as [| | | | |l]; try done.
  apply valid_lookup in V as [o E]. unfold own_props.
  by rewrite E, (prefix_lookup_Some _ _ _ _ E Hpre).
Qed.

Lemma field_valid h0 s0 st v k :
  keeps h0 s0 st -> valid h0 v = true -> field (heap_of st) v k = field h0 v k.
Proof. intros. unfold field. by erewrite own_props_valid. Qed.

Lemma valid_keeps h0 s0 st v :
  keeps h0 s0 st -> valid h0 v = true -> valid (heap_of st) v = true.
Proof.
  intros K V. destruct v as [| | | | |l]; try done.
  apply bool_decide_eq_true in V. apply bool_decide_eq_true.
  apply keeps_length in K. lia.
Qed.

Lemma ToString_text print stack h v :
  is_ref v = false -> ToString print stack h v = Ok (text print v).
Proof. by destruct v, stack. Qed.

Lemma update_extend st props l f :
  l = length (heap_of st) ->
  update (extend st (OObj props)) l f = extend st (OObj (f props)).
Proof.
  intros ->. unfold update, extend. cbn [heap_of sent]. f_equal.
  rewrite alter_app_r_alt by done. by rewrite Nat.sub_diag.
Qed.

Lemma wp_ToString_text print d v (Q : string -> state -> Prop) E st :
  is_ref v = false -> Q (text print v) st ->
  wp (read (fun h => ToString print d h v)) Q E st.
Proof. intros R HQ. apply wp_read. by rewrite ToString_text. Qed.

End FillFacts.

Module RelationFacts.
Import ValidationFacts MonadFacts Payload FillFacts.

Lemma indexed_lookup_elem {A} (f : A -> value) (l : list A) k v :
  indexed f l !! k = Some v -> exists x, x ∈ l /\ v = f x.
Proof.
  unfold indexed. intros H%elem_of_list_to_map_2.
  apply list_elem_of_lookup in H as [i H]. rewrite list_lookup_imap in H.
  destruct (l !! i) as [x|] eqn:E; [|done]. injection H as _ <-.
  exists x. split; [|done]. by eapply list_elem_of_lookup_2.
Qed.

Lemma valid_own_props h v k x :
  well_formed h = true -> own_props h v !! k = Some x -> valid h x = true.
Proof.
  intros W H. destruct v as [| | | |s|l]; try done.
  - by apply indexed_lookup_elem in H as (c & _ & ->).
  - unfold own_props in H. destruct (h !! l) as [o|] eqn:E; [|done].
    unfold well_formed in W. rewrite forallb_forall in W.
    assert (C : closed h o = true).
    { apply W, list_elem_of_In. by eapply list_elem_of_lookup_2. }
    destruct o as [props|elems]; cbn [closed] in C.
    + apply bool_decide_eq_true in C. by apply (C k x).
    + apply indexed_lookup_elem in H as (y & Hy & ->).
      rewrite forallb_forall in C. by apply C, list_elem_of_In.
Qed.

Lemma valid_field h v k : well_formed h = true -> valid h (field h v k) = true.
Proof.
  intros W. unfold field. destruct (own_props h v !! k) as [x|] eqn:E; [|done].
  by eapply valid_own_props.
Qed.

Lemma nullish_field h v k : nullish (field h v k) = false -> nullish v = false.
Proof. by destruct v. Qed.

Lemma keeps_trans h0 s0 st st' :
  keeps h0 s0 st -> keeps (heap_of st) (sent st) st' -> keeps h0 s0 st'.
Proof. intros [? ?] [? ?]. split; [congruence | by etransitivity]. Qed.

Section Relations.

Variables (h : heap) (s : list request) (body : value).
Hypothesis W : well_formed h = true.
Hypothesis Vb : valid h body = true.
Hypothesis Ne : nullish (field h body "_embedded") = false.

Lemma embedded_run st k :
  keeps h s st ->
  DataStore.embedded body k st = (Ok (relation h body k), st).
Proof.
  intros K. unfold DataStore.embedded.
  erewrite bindM_ok.
  2:{ apply read_ok, get_ok. by eapply nullish_field. }
  rewrite (field_valid h s st body "_embedded" K Vb).
  apply read_ok. rewrite get_ok by done. unfold relation.
  by rewrite (field_valid h s st _ k K (valid_field _ _ _ W)).
Qed.

(** The first entry of a relation, or a new empty object: what is read
    of it from then on. *)
Lemma first_or_empty_run st k :
  keeps h s st ->
  exists v st',
    DataStore.first_or_empty body k st = (Ok v, st')
    /\ keeps h s st'
    /\ (st' = st \/ st' = extend st (OObj ∅))
    /\ valid (heap_of st') v = true
    /\ (nullish v = false <-> match first_of h body k with
                              | Some entry => nullish entry = false
                              | None => True
                              end)
    /\ (forall k', field (heap_of st') v k' = first_field h body k k')
    /\ own_props (heap_of st') v = first_props h body k.
Proof.
  intros K. unfold DataStore.first_or_empty, first_field, first_props, first_of.
  rewrite (bindM_ok _ _ _ _ _ (embedded_run st k K)).
  destruct (truthy (relation h body k)) eqn:T.
  - exists (field h (relation h body k) "0"), st.
    assert (Vr : valid h (relation h body k) = true) by by apply valid_field.
    assert (V0 : valid h (field h (relation h body k) "0") = true)
      by by apply valid_field.
    split_and!; try done.
    + rewrite (bindM_ok _ _ _ _ _ (embedded_run st k K)).
      apply read_ok. rewrite get_ok by by destruct (relation h body k).
      by rewrite (field_valid h s st _ "0" K Vr).
    + by left.
    + by eapply valid_keeps.
    + intros k'. by eapply field_valid.
    + by eapply own_props_valid.
  - exists (VRef (length (heap_of st))), (extend st (OObj ∅)).
    split_and!; try done.
    + by apply keeps_extend.
    + by right.
    + apply bool_decide_eq_true. rewrite length_extend. lia.
    + intros k'. unfold field, own_props.
      by rewrite lookup_extend_new, lookup_empty.
    + unfold own_props. by rewrite lookup_extend_new.
Qed.

End Relations.

Lemma assignments_ext_order print b b' c c' p p' items customer shipping :
  (forall k, b k = b' k) -> (forall k, c k = c' k) -> (forall k, p k = p' k) ->
  order_fields print b c p items customer shipping
  = order_fields print b' c' p' items customer shipping.
Proof. intros Hb Hc Hp. unfold order_fields. by rewrite !Hb, !Hc, !Hp. Qed.

Lemma customer_fields_ext c c' :
  (forall k, c k = c' k) -> customer_fields c = customer_fields c'.
Proof. intros Hc. unfold customer_fields. by rewrite !Hc. Qed.

End RelationFacts.

(** ** The order's shipping *)

(** One step along every path, naming what is read. *)
Ltac wp_step_eq :=
  cbv beta;
  lazymatch goal with
  | |- wp (read (fun h => Ok (own_props h _))) _ _ _ =>
      apply wp_pure; let x := fresh "spread" in let E := fresh "Espread" in intros x E
  | _ => wp_step; try exact I
  end.

Module ShippingFacts.
Import ValidationFacts MonadFacts Payload FillFacts RelationFacts.

Lemma createOrder_fill_shipping print stack body fxCustomer fxShipment fxPayment fxItems st :
  valid (heap_of st) fxShipment = true ->
  wp (createOrder_fill print stack body fxCustomer fxShipment fxPayment fxItems)
     (fun order st' =>
        exists shipping,
          own_props (heap_of st') (VRef order) !! "shipping" = Some (VRef shipping)
          /\ length (heap_of st) <= shipping
          /\ heap_of st' !! shipping
             = Some (OObj (delete "_links" (own_props (heap_of st) fxShipment))))
     (fun _ _ => True)
     st.
Proof.
  intros V. unfold createOrder_fill, DataStore.assign.
  repeat wp_step_eq.
  all: rewrite (own_props_valid (heap_of st) (sent st)) in Espread
    by (done || keeps_tac).
  all: eexists; split_and!;
    [ unfold own_props; heap_lookup;
      cbn [fmap option_fmap option_map on_props];
      rewrite !lookup_insert_ne by done; apply lookup_insert_eq
    | lia
    | heap_lookup; cbn [fmap option_fmap option_map on_props]; by rewrite Espread ].
Qed.

Lemma first_props_keeps h s st body k :
  well_formed h = true -> valid h body = true -> keeps h s st ->
  first_props (heap_of st) body k = first_props h body k.
Proof.
  intros W Vb K.
  assert (R : relation (heap_of st) body k = relation h body k).
  { unfold relation. rewrite (field_valid h s st body "_embedded" K Vb).
    by rewrite (field_valid h s st _ k K (valid_field _ _ _ W)). }
  unfold first_props, first_of. rewrite R.
  destruct (truthy (relation h body k)); [|done].
  rewrite (field_valid h s st (relation h body k) "0" K (valid_field h _ k W)).
  by rewrite (own_props_valid h s st _ K (valid_field h (relation h body k) "0" W)).
Qed.

Lemma createOrder_mapping_shipping print stack body st :
  well_formed (heap_of st) = true -> valid (heap_of st) body = true ->
  wp (DataStore.createOrder_mapping print stack body)
     (fun order st' => shipping_is_shallow_copy st st' body order)
     (fun _ _ => True)
     st.
Proof.
  intros W Vb.
  pose proof (OrderFacts.createOrder_mapping_wp print stack body st) as Kall.
  unfold wp in *.
  destruct (DataStore.createOrder_mapping print stack body st) as [[order|e] st']
    eqn:Run; [|done].
  destruct Kall as [K _].
  split; [by eapply first_props_keeps|].
  revert Run. rewrite createOrder_mapping_eq.
  destruct (nullish (field (heap_of st) body "_embedded")) eqn:Ne.
  { erewrite bindM_throw; [done|]. unfold DataStore.embedded.
    destruct (nullish body) eqn:Nb.
    - erewrite bindM_throw; [done|]. by apply read_throw, get_nullish.
    - erewrite bindM_ok; [|by apply read_ok, get_ok].
      by apply read_throw, get_nullish. }
  assert (K0 : keeps (heap_of st) (sent st) st) by done.
  rewrite (bindM_ok _ _ _ _ _ (embedded_run _ _ body W Vb Ne st _ K0)).
  destruct (first_or_empty_run _ _ body W Vb Ne st "fx:shipments" K0)
    as (ship & st1 & E1 & K1 & _ & Vs & _ & _ & Ps).
  rewrite (bindM_ok _ _ _ _ _ E1).
  destruct (first_or_empty_run _ _ body W Vb Ne st1 "fx:payments" K1)
    as (pay & st2 & E2 & K2 & D12 & _).
  rewrite (bindM_ok _ _ _ _ _ E2).
  rewrite (bindM_ok _ _ _ _ _ (embedded_run _ _ body W Vb Ne st2 _ K2)).
  assert (K12 : keeps (heap_of st1) (sent st1) st2).
  { destruct D12 as [->| ->]; [done | by apply keeps_extend]. }
  pose proof (createOrder_fill_shipping print stack body
                (relation (heap_of st) body "fx:customer") ship pay
                (relation (heap_of st) body "fx:items") st2
                (valid_keeps _ _ _ _ K12 Vs)) as F.
  unfold wp in F. intros Run. rewrite Run in F.
  destruct F as (shipping & Hs & Hl & Hp). exists shipping.
  pose proof (keeps_length _ _ _ K2) as L.
  split_and!; [done | lia |].
  by rewrite Hp, (own_props_valid _ _ _ _ K12 Vs), Ps.
Qed.

End ShippingFacts.

(** * The claims *)

Import RegexFacts CredentialFacts ValidationFacts MonadFacts ConversionFacts.
Import UpdateFacts CanonicalFacts OrderFacts.

(** ** Credentials *)

(** C1. When the combined credentials string ends with
    [Store ID <5 digits> API Key <alphanumerics>], [parseConfigCredentials]
    returns the two captured groups as [id] and [key]; when the string is
    absent or does not match, it returns the discrete [storeId] and
    [apiKey] fields. *)
Theorem parseConfigCredentials_resolves (cfg : config.t) :
  (forall i k,
      Spec.combined_matches cfg i k ->
      DataStore.parseConfigCredentials cfg
      = Ok {| DataStore.id := VStr i; DataStore.key := VStr k |})
  /\ (Spec.combined_absent_or_malformed cfg ->
      DataStore.parseConfigCredentials cfg = Ok (Spec.discrete_credentials cfg)).
Proof. split; [apply parse_matching | apply parse_fallback]. Qed.

Lemma parseConfigCredentials_resolves_witness :
  DataStore.parseConfigCredentials Scenarios.config_combined
  = Ok {| DataStore.id := VStr "12345"; DataStore.key := VStr "abcDEF123" |}
  /\ DataStore.parseConfigCredentials Scenarios.config_malformed
     = Ok {| DataStore.id := VStr "54321"; DataStore.key := VStr "secret" |}
  /\ DataStore.parseConfigCredentials Scenarios.config_discrete
     = Ok {| DataStore.id := VStr "54321"; DataStore.key := VStr "secret" |}.
Proof.
  split_and!.
  - apply (proj1 (parseConfigCredentials_resolves Scenarios.config_combined)).
    exists "". split_and!; reflexivity.
  - apply (proj2 (parseConfigCredentials_resolves Scenarios.config_malformed)).
    right. eexists. split; [reflexivity|].
    intros before i k Hi Hk.
    apply string_match_None_inv; [reflexivity | exact Hi | exact Hk].
  - apply (proj2 (parseConfigCredentials_resolves Scenarios.config_discrete)).
    left. reflexivity.
Defined.

(** C2. When neither the combined string nor the discrete fields give a
    non-empty id and a non-empty key, the constructor throws, so no adapter
    is made; when the base constructor returns and the combined string is
    absent or malformed, the exception is the configuration error. *)
Theorem constructor_requires_credentials (base : result unit) (cfg : config.t) :
  (forall i k, ~ Spec.combined_matches cfg i k) ->
  ~ Spec.discrete_present cfg ->
  (exists e, DataStore.constructor base cfg = Throw e)
  /\ (base = Ok tt -> Spec.combined_absent_or_malformed cfg ->
      DataStore.constructor base cfg
      = Throw (Error DataStore.missing_credentials None)).
Proof.
  intros Hc Hd. unfold DataStore.constructor. split.
  - destruct base as [[]|e]; cbn [bind]; [|by eexists].
    destruct (parse_without_match cfg Hc) as [E|E].
    + rewrite (setCredentials_missing _ E Hd). cbn [bind]. by eexists.
    + unfold DataStore.setCredentials. rewrite E. cbn [bind]. by eexists.
  - intros -> H. cbn [bind].
    by rewrite (setCredentials_missing _ (parse_fallback _ H) Hd).
Qed.

Lemma constructor_requires_credentials_witness :
  DataStore.constructor (Ok tt) Scenarios.config_missing
  = Throw (Error DataStore.missing_credentials None).
Proof.
  apply (proj2 (constructor_requires_credentials (Ok tt) Scenarios.config_missing
                  (fun i k H => match H with
                                | ex_intro _ _ (conj E _) =>
                                    eq_ind VUndef
                                      (fun v => match v with VUndef => True | _ => False end)
                                      I _ E
                                end)
                  (fun H => match H with
                            | conj _ K => Bool.diff_false_true K
                            end))).
  - reflexivity.
  - left. reflexivity.
Defined.

(** ** Inventory validation and update *)

(** C3, amended.  [validateInventoryItem] returns true exactly when [id],
    [name] and [code] are truthy, [price] is truthy or exactly 0, and
    [stock] is truthy or exactly 0.  The boundary item
    [{id:"1", name:"A", code:"SKU1", price:0, stock:0}] is accepted, and an
    item without [id], [name] or [code] is rejected. *)
Theorem validateInventoryItem_accepts (h : heap) (item : value) :
  (DataStore.validateInventoryItem h item = Ok true <-> Spec.accepts h item = true)
  /\ (own_props h item = Spec.boundary_fields ->
      DataStore.validateInventoryItem h item = Ok true)
  /\ (nullish item = false -> Spec.missing_required h item ->
      DataStore.validateInventoryItem h item = Ok false).
Proof.
  rewrite validateInventoryItem_eq. split_and!.
  - destruct (nullish item) eqn:N.
    + split; [done|]. intros A%accepts_not_nullish. congruence.
    + split; [by intros [= ->] | by intros ->].
  - intros E.
    assert (A : Spec.accepts h item = true).
    { unfold Spec.accepts, field. rewrite E. reflexivity. }
    by rewrite (accepts_not_nullish _ _ A), A.
  - intros -> M. by rewrite accepts_missing.
Qed.

Lemma validateInventoryItem_accepts_witness :
  DataStore.validateInventoryItem (heap_of Scenarios.inventory) (VRef 0) = Ok true
  /\ DataStore.validateInventoryItem (heap_of Scenarios.inventory) (VRef 1) = Ok false.
Proof.
  split.
  - apply (proj1 (proj2 (validateInventoryItem_accepts
                           (heap_of Scenarios.inventory) (VRef 0)))).
    reflexivity.
  - apply (proj2 (proj2 (validateInventoryItem_accepts
                           (heap_of Scenarios.inventory) (VRef 1)))).
    + reflexivity.
    + right. left. reflexivity.
Defined.

(** C3 as stated fails in both directions: a price of [NaN] is a number
    and is rejected; a price of ["9.99"] is neither a number nor 0 and is
    accepted. *)
Lemma validateInventoryItem_number_claim_fails :
  (DataStore.validateInventoryItem (heap_of Scenarios.inventory) (VRef 4) = Ok false
   /\ Spec.valid_as_stated (heap_of Scenarios.inventory) (VRef 4) = true)
  /\ (DataStore.validateInventoryItem (heap_of Scenarios.inventory) (VRef 5) = Ok true
      /\ Spec.valid_as_stated (heap_of Scenarios.inventory) (VRef 5) = false).
Proof. split_and!; by vm_compute. Qed.

Section Update.

Variable number_to_string : float -> string.
Variable stack : nat.
Variable JSON_stringify : heap -> value -> result string.
Variable fetch_json : request -> heap -> result value * heap.
Variable this : DataStore.t.

(** C4. When at least one item of the batch does not pass
    [validateInventoryItem], [updateInventoryItems] throws and no request
    has been sent. *)
Theorem updateInventoryItems_all_or_nothing st l elems item :
  heap_of st !! l = Some (OArr elems) ->
  item ∈ elems ->
  DataStore.validateInventoryItem (heap_of st) item <> Ok true ->
  exists e st',
    DataStore.updateInventoryItems number_to_string stack JSON_stringify
      fetch_json this (VRef l) st = (Throw e, st')
    /\ sent st' = sent st.
Proof.
  intros Hl Hin Hbad.
  destruct (updateInventoryItems_rejects number_to_string stack JSON_stringify
              fetch_json this st l elems item Hl Hin Hbad) as (e & st' & ? & ? & _).
  by exists e, st'.
Qed.

(** What [updateInventoryItems] throws for a batch with an invalid item
    is the error with the fixed message "Invalid inventory items for
    update" and no cause, or an engine error met while filtering or
    joining: none of them names an item. *)
Theorem updateInventoryItems_error_is_fixed st l elems item :
  heap_of st !! l = Some (OArr elems) ->
  item ∈ elems ->
  DataStore.validateInventoryItem (heap_of st) item <> Ok true ->
  exists e st',
    DataStore.updateInventoryItems number_to_string stack JSON_stringify
      fetch_json this (VRef l) st = (Throw e, st')
    /\ (e = Spec.invalid_items_error \/ Spec.engine_error e).
Proof.
  intros Hl Hin Hbad.
  destruct (updateInventoryItems_rejects number_to_string stack JSON_stringify
              fetch_json this st l elems item Hl Hin Hbad) as (e & st' & ? & _ & ?).
  by exists e, st'.
Qed.

End Update.

Lemma updateInventoryItems_all_or_nothing_witness :
  exists e st',
    DataStore.updateInventoryItems Scenarios.number_to_string Scenarios.stack
      Scenarios.JSON_stringify (Scenarios.answer (OObj ∅)) Scenarios.adapter
      (VRef 2) Scenarios.inventory = (Throw e, st')
    /\ sent st' = sent Scenarios.inventory.
Proof.
  apply (updateInventoryItems_all_or_nothing Scenarios.number_to_string
           Scenarios.stack Scenarios.JSON_stringify (Scenarios.answer (OObj ∅))
           Scenarios.adapter Scenarios.inventory 2 [VRef 0; VRef 1] (VRef 1)).
  - reflexivity.
  - right. left.
  - vm_compute. discriminate.
Defined.

Lemma updateInventoryItems_error_is_fixed_witness :
  exists e st',
    DataStore.updateInventoryItems Scenarios.number_to_string Scenarios.stack
      Scenarios.JSON_stringify (Scenarios.answer (OObj ∅)) Scenarios.adapter
      (VRef 2) Scenarios.inventory = (Throw e, st')
    /\ (e = Spec.invalid_items_error \/ Spec.engine_error e).
Proof.
  apply (updateInventoryItems_error_is_fixed Scenarios.number_to_string
           Scenarios.stack Scenarios.JSON_stringify (Scenarios.answer (OObj ∅))
           Scenarios.adapter Scenarios.inventory 2 [VRef 0; VRef 1] (VRef 1)).
  - reflexivity.
  - right. left.
  - vm_compute. discriminate.
Defined.

(** C5, at the batch of one valid and one invalid item.  The error
    thrown has the bare message and no cause: the joined text of the
    invalid items, which is ["[object Object]"], is passed as the second
    argument of [Error] and dropped there, so the error does not say which
    items were invalid. *)
Example updateInventoryItems_one_invalid :
  DataStore.updateInventoryItems Scenarios.number_to_string Scenarios.stack
    Scenarios.JSON_stringify (Scenarios.answer (OObj ∅)) Scenarios.adapter
    (VRef 2) Scenarios.inventory
  = (Throw (Error "Invalid inventory items for update" None),
     extend Scenarios.inventory (OArr [VRef 1]))
  /\ join Scenarios.number_to_string Scenarios.stack
       (heap_of (extend Scenarios.inventory (OArr [VRef 1]))) (VRef 7)
     = Ok "[object Object]".
Proof. split; by vm_compute. Qed.

(** ** Canonical conversion *)

(** C6, amended.  [convertToCanonical] only adds one new object to the
    heap and sends nothing.  The new object has every field of the input
    other than [inventory] and [update_source] unchanged, [inventory] equal
    to the input's [stock], and the fixed [update_source] tag.  Converting
    the result again gives an object with the same fields. *)
Theorem convertToCanonical_projection (st : state) (item : value) :
  nullish item = false ->
  exists props,
    let st' := extend st (OObj props) in
    let canonical := VRef (length (heap_of st)) in
    DataStore.convertToCanonical item st = (Ok canonical, st')
    /\ (forall k, k <> "inventory" -> k <> "update_source" ->
                  props !! k = own_props (heap_of st) item !! k)
    /\ props !! "inventory" = Some (field (heap_of st) item "stock")
    /\ props !! "update_source" = Some Spec.update_source_tag
    /\ DataStore.convertToCanonical canonical st'
       = (Ok (VRef (length (heap_of st'))), extend st' (OObj props)).
Proof.
  intros N. exists (Spec.canonical_props (heap_of st) item). cbn zeta.
  split_and!.
  - by apply convertToCanonical_run.
  - intros. by apply canonical_props_other.
  - apply canonical_props_inventory.
  - apply canonical_props_update_source.
  - rewrite convertToCanonical_run by done. do 3 f_equal.
    apply (canonical_props_again (heap_of st) item).
Qed.

Lemma convertToCanonical_projection_witness :
  exists props,
    let st' := extend Scenarios.inventory (OObj props) in
    let canonical := VRef (length (heap_of Scenarios.inventory)) in
    DataStore.convertToCanonical (VRef 6) Scenarios.inventory = (Ok canonical, st')
    /\ (forall k, k <> "inventory" -> k <> "update_source" ->
                  props !! k = own_props (heap_of Scenarios.inventory) (VRef 6) !! k)
    /\ props !! "inventory" = Some (field (heap_of Scenarios.inventory) (VRef 6) "stock")
    /\ props !! "update_source" = Some Spec.update_source_tag
    /\ DataStore.convertToCanonical canonical st'
       = (Ok (VRef (length (heap_of st'))), extend st' (OObj props)).
Proof.
  apply (convertToCanonical_projection Scenarios.inventory (VRef 6)).
  reflexivity.
Defined.

(** C6 as stated fails: the vendor record at 6 has
    [update_source = "import"] and [inventory = 7], and neither reaches
    the result unchanged. *)
Lemma convertToCanonical_changes_fields :
  exists canonical st',
    DataStore.convertToCanonical (VRef 6) Scenarios.inventory = (Ok canonical, st')
    /\ ~ Spec.passes_through (heap_of Scenarios.inventory) (VRef 6)
           (heap_of st') canonical.
Proof.
  eexists _, _. split; [reflexivity|].
  intros H.
  assert (E := H "update_source" (VStr "import") eq_refl).
  vm_compute in E. discriminate.
Qed.

(** C10. Whatever [inventory] and [update_source] the input carries, the
    result has [inventory] equal to the input's [stock] and the fixed
    [update_source] tag; an input value of either field that differs from
    these does not reach the result. *)
Theorem convertToCanonical_overwrites (st : state) (item : value) :
  nullish item = false ->
  exists canonical st',
    DataStore.convertToCanonical item st = (Ok canonical, st')
    /\ own_props (heap_of st') canonical !! "inventory"
       = Some (field (heap_of st) item "stock")
    /\ own_props (heap_of st') canonical !! "update_source"
       = Some Spec.update_source_tag
    /\ (forall v, own_props (heap_of st) item !! "inventory" = Some v ->
                  v <> field (heap_of st) item "stock" ->
                  own_props (heap_of st') canonical !! "inventory" <> Some v)
    /\ (forall v, own_props (heap_of st) item !! "update_source" = Some v ->
                  v <> Spec.update_source_tag ->
                  own_props (heap_of st') canonical !! "update_source" <> Some v).
Proof.
  intros N. eexists _, _. split; [by apply convertToCanonical_run|].
  unfold extend. cbn [heap_of].
  rewrite own_props_new, canonical_props_inventory, canonical_props_update_source.
  split_and!; [done..| |]; intros v _ Hv [= E]; by apply Hv.
Qed.

Lemma convertToCanonical_overwrites_witness :
  exists canonical st',
    DataStore.convertToCanonical (VRef 6) Scenarios.inventory = (Ok canonical, st')
    /\ own_props (heap_of st') canonical !! "inventory"
       = Some (field (heap_of Scenarios.inventory) (VRef 6) "stock")
    /\ own_props (heap_of st') canonical !! "update_source"
       = Some Spec.update_source_tag
    /\ (forall v, own_props (heap_of Scenarios.inventory) (VRef 6) !! "inventory" = Some v ->
                  v <> field (heap_of Scenarios.inventory) (VRef 6) "stock" ->
                  own_props (heap_of st') canonical !! "inventory" <> Some v)
    /\ (forall v, own_props (heap_of Scenarios.inventory) (VRef 6) !! "update_source" = Some v ->
                  v <> Spec.update_source_tag ->
                  own_props (heap_of st') canonical !! "update_source" <> Some v).
Proof.
  apply (convertToCanonical_overwrites Scenarios.inventory (VRef 6)).
  reflexivity.
Defined.

(** ** Order mapping *)

Section Orders.

Variable number_to_string : float -> string.
Variable stack : nat.
Variable JSON_stringify : heap -> value -> result string.
Variable fetch_json : request -> heap -> result value * heap.
Variable this : DataStore.t.

(** C7. For a payload with the customer relation and with neither
    [fx:shipments] nor [fx:payments], the mapping of [createOrder] returns
    an order whose [shipping] is an empty object and whose [cc_exp] is the
    string "undefined/undefined"; that order is what [createOrder]
    serialises and posts. *)
Theorem createOrder_without_shipments_and_payments body st :
  Spec.customer_only (heap_of st) body ->
  exists order st',
    DataStore.createOrder_mapping number_to_string stack body st = (Ok order, st')
    /\ Spec.bare_order st' order
    /\ DataStore.createOrder number_to_string stack JSON_stringify fetch_json
         this body st
       = bindM (read (fun h => JSON_stringify h (VRef order)))
           (fun json =>
              DataStore.fetch fetch_json
                {| url := DataStore.buildEndpoint this "orders";
                   method := "POST";
                   headers := DataStore.getDefaultHeader this;
                   body := Some json |})
           st'.
Proof.
  intros H.
  pose proof (createOrder_mapping_customer_only number_to_string stack body st H)
    as W.
  unfold wp in W.
  destruct (DataStore.createOrder_mapping number_to_string stack body st)
    as [[order|e] st'] eqn:Run; [|done].
  exists order, st'. split_and!; [done..|].
  unfold DataStore.createOrder. by erewrite bindM_ok.
Qed.

(** C9, amended.  The mapping of [createOrder] mutates no object of the
    caller: every object that was in the heap is still there, unchanged,
    and nothing is sent.  In the order it returns, [shipping] is an object
    made during the call, without [_links]; and, in a heap without
    dangling references, it is a shallow copy of the first shipment: it
    has the fields of the caller's first shipment, [_links] removed, while
    the caller's shipment has the fields it had.  The link metadata is
    deleted from the copy only. *)
Theorem createOrder_mapping_leaves_input body st :
  sent (snd (DataStore.createOrder_mapping number_to_string stack body st)) = sent st
  /\ heap_of st `prefix_of`
       heap_of (snd (DataStore.createOrder_mapping number_to_string stack body st))
  /\ match fst (DataStore.createOrder_mapping number_to_string stack body st) with
     | Ok order =>
         Spec.shipping_is_copy st
           (snd (DataStore.createOrder_mapping number_to_string stack body st)) order
         /\ (Payload.well_formed (heap_of st) = true ->
             Payload.valid (heap_of st) body = true ->
             Payload.shipping_is_shallow_copy st
               (snd (DataStore.createOrder_mapping number_to_string stack body st))
               body order)
     | Throw _ => True
     end.
Proof.
  pose proof (createOrder_mapping_wp number_to_string stack body st) as W.
  pose proof (ShippingFacts.createOrder_mapping_shipping number_to_string stack
                body st) as C.
  unfold wp, keeps in W, C.
  destruct (DataStore.createOrder_mapping number_to_string stack body st)
    as [[order|e] st']; cbn [fst snd]; tauto.
Qed.

(** The same holds of the whole of [createOrder] when the transport
    only adds the parsed response to the heap. *)
Lemma createOrder_leaves_input body st :
  (forall req h, h `prefix_of` snd (fetch_json req h)) ->
  heap_of st `prefix_of`
    heap_of (snd (DataStore.createOrder number_to_string stack JSON_stringify
                    fetch_json this body st)).
Proof.
  intros Hnet.
  pose proof (createOrder_mapping_wp number_to_string stack body st) as W.
  unfold wp, keeps in W. unfold DataStore.createOrder, bindM.
  destruct (DataStore.createOrder_mapping number_to_string stack body st)
    as [[order|e] st']; cbn [snd]; [|tauto].
  destruct W as [[_ Hpre] _]. unfold read.
  destruct (JSON_stringify (heap_of st') (VRef order)) as [json|e]; cbn [snd];
    [|done].
  unfold DataStore.fetch.
  match goal with |- context [fetch_json ?req ?h] =>
    specialize (Hnet req h); destruct (fetch_json req h) as [r h'] end.
  cbn [snd heap_of] in *. by etransitivity.
Qed.

End Orders.

Lemma createOrder_without_shipments_and_payments_witness :
  exists order st',
    DataStore.createOrder_mapping Scenarios.number_to_string Scenarios.stack
      (VRef 7) Scenarios.orders = (Ok order, st')
    /\ Spec.bare_order st' order
    /\ DataStore.createOrder Scenarios.number_to_string Scenarios.stack
         Scenarios.JSON_stringify (Scenarios.answer (OObj ∅)) Scenarios.adapter
         (VRef 7) Scenarios.orders
       = bindM (read (fun h => Scenarios.JSON_stringify h (VRef order)))
           (fun json =>
              DataStore.fetch (Scenarios.answer (OObj ∅))
                {| url := DataStore.buildEndpoint Scenarios.adapter "orders";
                   method := "POST";
                   headers := DataStore.getDefaultHeader Scenarios.adapter;
                   body := Some json |})
           st'.
Proof.
  apply (createOrder_without_shipments_and_payments Scenarios.number_to_string
           Scenarios.stack Scenarios.JSON_stringify (Scenarios.answer (OObj ∅))
           Scenarios.adapter (VRef 7) Scenarios.orders).
  exists (VRef 8), (VRef 2). split_and!; reflexivity.
Defined.

(** On the payload at 0 the order is made at 12, and its shipping has
    the fields of the shipment at 4 without [_links]. *)
Lemma createOrder_mapping_leaves_input_witness :
  Payload.shipping_is_shallow_copy Scenarios.orders
    (snd (DataStore.createOrder_mapping Scenarios.number_to_string Scenarios.stack
            (VRef 0) Scenarios.orders))
    (VRef 0) 12.
Proof.
  pose proof (createOrder_mapping_leaves_input Scenarios.number_to_string
                Scenarios.stack (VRef 0) Scenarios.orders) as (_ & _ & H).
  assert (E : fst (DataStore.createOrder_mapping Scenarios.number_to_string
                     Scenarios.stack (VRef 0) Scenarios.orders) = Ok 12)
    by (vm_compute; reflexivity).
  rewrite E in H. destruct H as [_ H]. apply H; reflexivity.
Defined.

(** C9 as stated fails: after [createOrder] on the payload at 0, the
    caller's shipment object at 4 still has its [_links]. *)
Lemma createOrder_keeps_shipment_links :
  is_Some (heap_of Scenarios.orders !! 4)
  /\ own_props
       (heap_of
          (snd (DataStore.createOrder Scenarios.number_to_string Scenarios.stack
                  Scenarios.JSON_stringify (Scenarios.answer (OObj ∅))
                  Scenarios.adapter (VRef 0) Scenarios.orders)))
       (VRef 4) !! "_links" = Some (VRef 6)
  /\ ~ Spec.links_deleted_in_place
         (snd (DataStore.createOrder Scenarios.number_to_string Scenarios.stack
                 Scenarios.JSON_stringify (Scenarios.answer (OObj ∅))
                 Scenarios.adapter (VRef 0) Scenarios.orders))
         (VRef 4).
Proof.
  split_and!; [by eexists | by vm_compute |].
  unfold Spec.links_deleted_in_place. by vm_compute.
Qed.

(** ** Inventory fetch *)




(** * Further properties of the adapter

    What the code shows beyond the statements above: the constructor's
    invariant, the shape of what validation accepts, the requests of the
    three operations, and the whole of the order mapping. *)

Import Props Payload.

(** ** Credentials *)

Module CredentialMore.
Import Regex.

Lemma truthy_store_id i : Spec.is_store_id i = true -> truthy (VStr i) = true.
Proof. intros [L _]%is_store_id_chars. by destruct i. Qed.

Lemma truthy_api_key k : Spec.is_api_key k = true -> truthy (VStr k) = true.
Proof. intros [N _]%is_api_key_chars. by destruct k. Qed.

(** What [parseConfigCredentials] returns, by the shape of the combined
    value. *)
Lemma parse_cases cfg :
  (exists i k, Spec.combined_matches cfg i k
               /\ DataStore.parseConfigCredentials cfg
                  = Ok {| DataStore.id := VStr i; DataStore.key := VStr k |})
  \/ (Spec.combined_absent_or_malformed cfg
      /\ DataStore.parseConfigCredentials cfg = Ok (Spec.discrete_credentials cfg))
  \/ (truthy (Spec.raw_credentials cfg) = true
      /\ (forall s, Spec.raw_credentials cfg <> VStr s)
      /\ DataStore.parseConfigCredentials cfg = Throw TypeError).
Proof.
  destruct (truthy (Spec.raw_credentials cfg)) eqn:T.
  2:{ right. left. split; [by left|]. apply parse_fallback. by left. }
  destruct (Spec.raw_credentials cfg) as [| | | |s|] eqn:E.
  5:{ destruct (string_match s) as [m|] eqn:Hm.
      - apply string_match_sound in Hm as (before & i & k & -> & Hi & Hk & _).
        left. exists i, k.
        assert (Spec.combined_matches cfg i k) by by exists before.
        split; [done|]. by apply parse_matching.
      - assert (Spec.combined_absent_or_malformed cfg).
        { right. exists s. split; [done|]. intros. by apply string_match_None_inv. }
        right. left. split; [done|]. by apply parse_fallback. }
  all: right; right; split; [done|]; split; [done|].
  all: unfold DataStore.parseConfigCredentials; fold (Spec.raw_credentials cfg).
  all: by rewrite E, ?T.
Qed.

Lemma last_alnum (l : list ascii) c :
  forallb is_alnum l = true -> last l = Some c -> is_alnum c = true.
Proof.
  intros A L. rewrite forallb_forall in A. apply A, list_elem_of_In.
  apply last_Some in L as [l' ->]. set_solver.
Qed.

Lemma string_match_trailing s c :
  is_alnum c = false -> string_match (s +:+ String c "") = None.
Proof.
  intros Hc. apply string_match_None. intros before i k Hi Hk E.
  apply (f_equal chars) in E. rewrite chars_app, chars_combined in E.
  apply is_api_key_chars in Hk as [Nk Ak].
  change (chars (String c "")) with [c] in E.
  apply (f_equal last) in E. unfold subject in E.
  rewrite !app_assoc, last_snoc, last_app in E.
  destruct (last (chars k)) as [x|] eqn:L.
  - injection E as ->. by rewrite (last_alnum _ _ Ak L) in Hc.
  - apply last_None in L. done.
Qed.

End CredentialMore.
Import CredentialMore.

(** ** Indexed properties *)

Module IndexFacts.

(** The keys of indexed properties are decimal numerals. *)
Lemma pretty_N_char_digit x : Regex.is_digit (pretty_N_char x) = true.
Proof. unfold pretty_N_char. by repeat case_match. Qed.

Lemma pretty_N_go_digits x s :
  forallb Regex.is_digit (chars s) = true ->
  forallb Regex.is_digit (chars (pretty_N_go x s)) = true.
Proof.
  revert s. induction (N.lt_wf_0 x) as [x _ IH]; intros s Hs.
  assert (x = 0 \/ 0 < x)%N as [->|?] by lia.
  - by rewrite pretty_N_go_0.
  - rewrite pretty_N_go_step by done. apply IH; [by apply N.div_lt|].
    cbn [list_ascii_of_string forallb]. by rewrite pretty_N_char_digit.
Qed.

Lemma pretty_nat_digits (n : nat) :
  forallb Regex.is_digit (chars (pretty n)) = true.
Proof.
  unfold pretty, pretty_nat, pretty, pretty_N. case_decide; [done|].
  by apply pretty_N_go_digits.
Qed.

Lemma indexed_lookup_Some {A} (f : A -> value) (l : list A) k v :
  indexed f l !! k = Some v -> is_index k.
Proof.
  unfold indexed. intros H%elem_of_list_to_map_2.
  apply list_elem_of_lookup in H as [i H]. rewrite list_lookup_imap in H.
  destruct (l !! i); [|done]. injection H as <- _. apply pretty_nat_digits.
Qed.

(** A property under a name that is not a numeral belongs to a plain
    object of the heap. *)
Lemma own_props_named h v k x :
  own_props h v !! k = Some x -> ~ is_index k ->
  exists l props, v = VRef l /\ h !! l = Some (OObj props) /\ props !! k = Some x.
Proof.
  intros H N. destruct v as [| | | |s|l]; try done.
  - by apply indexed_lookup_Some in H.
  - unfold own_props in H. destruct (h !! l) as [[props|elems]|] eqn:E; [| |done].
    + by exists l, props.
    + by apply indexed_lookup_Some in H.
Qed.

Lemma truthy_field h v k :
  truthy (field h v k) = true -> exists x, own_props h v !! k = Some x /\ truthy x = true.
Proof.
  unfold field. destruct (own_props h v !! k) as [x|]; [|done]. by exists x.
Qed.

End IndexFacts.
Import IndexFacts.

(** ** Canonical items *)

Module CanonicalMore.

Lemma field_new h props k :
  field (h ++ [OObj props]) (VRef (length h)) k = default VUndef (props !! k).
Proof. unfold field. by rewrite own_props_new. Qed.

Lemma accepts_canonical h item :
  Spec.accepts (h ++ [OObj (Spec.canonical_props h item)]) (VRef (length h))
  = Spec.accepts h item.
Proof.
  unfold Spec.accepts. rewrite !field_new.
  rewrite !canonical_props_other by done. done.
Qed.

End CanonicalMore.
Import CanonicalMore.

(** ** Requests *)

Module RequestFacts.

Lemma fetch_run fetch_json req st :
  DataStore.fetch fetch_json req st = sent_from fetch_json req st.
Proof.
  unfold DataStore.fetch, sent_from. by destruct (fetch_json req (heap_of st)).
Qed.

Lemma filter_result_none {A} (keep : A -> result bool) l :
  Forall (fun x => keep x = Ok false) l -> filter_result keep l = Ok [].
Proof.
  induction 1 as [|x l Hx _ IH]; [done|]. simpl. by rewrite Hx, IH.
Qed.

Lemma join_not_array print stack h v :
  is_array h v = false -> join print stack h v = Throw TypeError.
Proof.
  unfold is_array, join. destruct v as [| | | | |l]; try done.
  by destruct (h !! l) as [[]|].
Qed.

Lemma fetchInventoryItems_run print stack fetch_json this items st joined :
  join print stack (heap_of st) items = Ok joined ->
  DataStore.fetchInventoryItems print stack fetch_json this items st
  = (bind (fst (fetch_json (codes_request this joined) (heap_of st)))
       (fun parsed => get (snd (fetch_json (codes_request this joined) (heap_of st)))
                        parsed "inventory_items"),
     snd (sent_from fetch_json (codes_request this joined) st)).
Proof.
  intros J. unfold DataStore.fetchInventoryItems.
  erewrite bindM_ok; [|by apply read_ok].
  unfold bindM. rewrite fetch_run. unfold sent_from, read. cbn [fst snd].
  change (URLSearchParams_toString [("code", joined)])
    with ("code=" +:+ urlencode joined).
  fold (codes_request this joined).
  by destruct (fetch_json _ _) as [[parsed|e] h'].
Qed.

Lemma concat_comma (a b : string) (rest : list string) :
  String.concat "," ((a +:+ "," +:+ b) :: rest) = String.concat "," (a :: b :: rest).
Proof.
  apply chars_inj. destruct rest as [|c rest]; cbn [String.concat].
  - done.
  - by rewrite !chars_app, <- !app_assoc.
Qed.

Lemma nat_of_ascii_bound c : nat_of_ascii c < 256.
Proof. destruct c as [[] [] [] [] [] [] [] []]; vm_compute; lia. Qed.

Lemma hex_digit_safe n : n < 16 -> url_safe (hex_digit n) = true.
Proof. intros H. do 16 (destruct n as [|n]; [done|]). lia. Qed.

Lemma urlencode_byte_safe c : forallb url_safe (urlencode_byte c) = true.
Proof.
  unfold urlencode_byte.
  destruct (is_alnum c || bool_decide (c ∈ chars "*-._")) eqn:S.
  - cbn [forallb]. rewrite andb_true_r. unfold url_safe.
    apply orb_true_iff in S as [->|S]; [done|].
    apply bool_decide_eq_true in S. rewrite orb_true_iff. right.
    apply bool_decide_eq_true. cbn in S |- *.
    rewrite !elem_of_cons in S. rewrite !elem_of_cons. tauto.
  - destruct (Ascii.eqb c " "); [done|].
    cbn [forallb]. rewrite !hex_digit_safe; [done|..].
    + apply Nat.mod_upper_bound. lia.
    + pose proof (nat_of_ascii_bound c). apply Nat.Div0.div_lt_upper_bound. lia.
Qed.

Lemma urlencode_safe s : forallb url_safe (chars (urlencode s)) = true.
Proof.
  unfold urlencode. rewrite chars_of_list.
  induction (chars s) as [|c l IH]; [done|].
  cbn [flat_map]. by rewrite forallb_app, urlencode_byte_safe, IH.
Qed.

End RequestFacts.
Import RequestFacts.

Module SendFacts.

Lemma app_assoc_string (a b c : string) : (a +:+ b) +:+ c = a +:+ (b +:+ c).
Proof.
  induction a as [|x a IH]; [done|].
  change (String x ((a +:+ b) +:+ c) = String x (a +:+ (b +:+ c))). by rewrite IH.
Qed.

Lemma buildEndpoint_app this path rest :
  DataStore.buildEndpoint this path +:+ rest = DataStore.buildEndpoint this (path +:+ rest).
Proof. unfold DataStore.buildEndpoint. by rewrite !app_assoc_string. Qed.

Lemma sent_fetch fetch_json req st :
  sent (snd (DataStore.fetch fetch_json req st)) = sent st ++ [req].
Proof. by rewrite fetch_run. Qed.

End SendFacts.
Import SendFacts.

(** ** The order mapping, step by step *)

Import FillFacts.

(** Reading a field of a value that the caller's heap holds. *)
Ltac get_old :=
  cbv beta; apply wp_bind;
  eapply wp_get_eq;
    [eapply field_valid; cycle 1; [eassumption | keeps_tac] | done | ].

Ltac assign_old :=
  cbv beta; apply wp_bind; get_old; cbv beta; apply wp_update.

Module FillRun.

Lemma createOrder_fill_run print stack body fxCustomer fxShipment fxPayment fxItems st :
  valid (heap_of st) body = true -> nullish body = false ->
  valid (heap_of st) fxCustomer = true -> nullish fxCustomer = false ->
  valid (heap_of st) fxPayment = true -> nullish fxPayment = false ->
  valid (heap_of st) fxShipment = true ->
  is_ref (field (heap_of st) fxPayment "cc_exp_month") = false ->
  is_ref (field (heap_of st) fxPayment "cc_exp_year") = false ->
  createOrder_fill print stack body fxCustomer fxShipment fxPayment fxItems st
  = (Ok (2 + length (heap_of st)),
     extend
       (extend
          (extend st (OObj (customer_fields (field (heap_of st) fxCustomer))))
          (OObj (delete "_links" (own_props (heap_of st) fxShipment))))
       (OObj (order_fields print (field (heap_of st) body)
                (field (heap_of st) fxCustomer) (field (heap_of st) fxPayment)
                fxItems (length (heap_of st)) (1 + length (heap_of st))))).
Proof.
  intros Vb Nb Vc Nc Vp Np Vs Rm Ry.
  cut (wp (createOrder_fill print stack body fxCustomer fxShipment fxPayment fxItems)
          (fun order st' =>
             (Ok order, st')
             = (Ok (2 + length (heap_of st)),
                extend
                  (extend
                     (extend st (OObj (customer_fields (field (heap_of st) fxCustomer))))
                     (OObj (delete "_links" (own_props (heap_of st) fxShipment))))
                  (OObj (order_fields print (field (heap_of st) body)
                           (field (heap_of st) fxCustomer)
                           (field (heap_of st) fxPayment)
                           fxItems (length (heap_of st)) (1 + length (heap_of st))))))
          (fun _ _ => False) st).
  { unfold wp. by destruct (createOrder_fill _ _ _ _ _ _ _ st) as [[order|e] st']. }
  unfold createOrder_fill, DataStore.assign, set_prop, delete_prop.
  get_old. get_old. new_object.
  cbv beta; apply wp_bind; eapply wp_pure_eq;
    [eapply own_props_valid; cycle 1; [eassumption | keeps_tac]|].
  new_object. change_props. new_object.
  assign_old. assign_old. do 3 change_props. do 7 assign_old.
  get_old. cbv beta; apply wp_bind; apply wp_ToString_text; [done|].
  get_old. cbv beta; apply wp_bind; apply wp_ToString_text; [done|].
  change_props. assign_old.
  (* order.status *)
  cbv beta; apply wp_bind; apply wp_bind;
    apply (wp_get_eq _ _ VUndef);
    [ unfold field, own_props; heap_lookup;
      cbn [fmap option_fmap option_map on_props];
      rewrite !lookup_insert_ne by done; by rewrite lookup_empty
    | done | ]; cbv beta; apply wp_update.
  assign_old. change_props. apply wp_ret.
  subst. rewrite !update_extend by (len; lia). reflexivity.
Qed.

End FillRun.
Import FillRun.

Import RelationFacts.

Module MappingRun.

Lemma createOrder_mapping_run print stack body st :
  mappable (heap_of st) body ->
  exists order st',
    DataStore.createOrder_mapping print stack body st = (Ok order, st')
    /\ mapped print st body order st'.
Proof.
  intros (W & Vb & Nc & Np & Rm & Ry).
  set (h := heap_of st) in *. set (s := sent st).
  assert (Ne : nullish (field h body "_embedded") = false)
    by by eapply nullish_field.
  assert (Nb : nullish body = false) by by eapply nullish_field.
  assert (K0 : keeps h s st) by done.
  rewrite createOrder_mapping_eq.
  rewrite (bindM_ok _ _ _ _ _ (embedded_run h s body W Vb Ne st _ K0)).
  destruct (first_or_empty_run h s body W Vb Ne st "fx:shipments" K0)
    as (ship & st1 & E1 & K1 & _ & Vs & _ & _ & Ps).
  rewrite (bindM_ok _ _ _ _ _ E1).
  destruct (first_or_empty_run h s body W Vb Ne st1 "fx:payments" K1)
    as (pay & st2 & E2 & K2 & D12 & Vp & Npay & Fp & _).
  rewrite (bindM_ok _ _ _ _ _ E2).
  rewrite (bindM_ok _ _ _ _ _ (embedded_run h s body W Vb Ne st2 _ K2)).
  assert (K12 : keeps (heap_of st1) (sent st1) st2).
  { destruct D12 as [->| ->]; [done | by apply keeps_extend]. }
  assert (Vc : valid h (relation h body "fx:customer") = true)
    by by apply valid_field.
  rewrite createOrder_fill_run.
  2-10: first [ by apply (valid_keeps h s) | by apply (valid_keeps _ _ _ _ K12)
                | done | by apply Npay | by rewrite Fp ].
  subst h s. eexists _, _. split; [reflexivity|].
  exists (length (heap_of st2)), (1 + length (heap_of st2)).
  pose proof (keeps_length _ _ _ K2) as L. destruct K2 as [S2 P2].
  split_and!.
  - done.
  - cbn [extend heap_of]. by do 3 apply prefix_app_r.
  - done.
  - lia.
  - lia.
  - heap_lookup. do 2 f_equal. apply assignments_ext_order.
    + intros k. by eapply field_valid.
    + intros k. by eapply field_valid.
    + done.
  - heap_lookup. do 2 f_equal. apply customer_fields_ext.
    intros k. by eapply field_valid.
  - heap_lookup. do 3 f_equal.
    by rewrite (own_props_valid _ _ _ _ K12 Vs).
Qed.

End MappingRun.
Import MappingRun.

(** One step along every path, keeping what is known to be null or not
    and closing the paths that contradict it; an exception has to be the
    [TypeError] and to leave the caller's heap alone. *)
Ltac wp_step_null :=
  cbv beta;
  lazymatch goal with
  | |- wp (bindM _ _) _ _ _ => apply wp_bind
  | |- wp (ret _) _ _ _ => apply wp_ret
  | |- wp (read (fun h => get h _ _)) _ _ _ =>
      apply wp_get;
      [ intros _; split; [reflexivity | by keeps_tac]
      | let N := fresh "N" in intros N ? _; try congruence ]
  | |- wp (read (fun h => Ok _)) _ _ _ => apply wp_pure; intros ? _
  | |- wp (alloc _) _ _ _ =>
      apply wp_alloc; let l := fresh "l" in let Hl := fresh "Hl" in
                      intros l Hl; revert Hl; len; intros Hl
  | |- wp (update_props _ _) _ _ _ => apply wp_update
  end.

Module FillThrows.

Lemma createOrder_fill_throws print stack body fxCustomer fxShipment fxPayment fxItems st :
  nullish fxCustomer = true \/ nullish fxPayment = true ->
  wp (createOrder_fill print stack body fxCustomer fxShipment fxPayment fxItems)
     (fun _ _ => False)
     (fun e st' => e = TypeError /\ keeps (heap_of st) (sent st) st')
     st.
Proof.
  intros [N|N]; unfold createOrder_fill, DataStore.assign, set_prop, delete_prop;
    repeat wp_step_null.
Qed.

Lemma embedded_throws body k st :
  nullish (field (heap_of st) body "_embedded") = true ->
  DataStore.embedded body k st = (Throw TypeError, st).
Proof.
  intros N. unfold DataStore.embedded.
  destruct (nullish body) eqn:Nb.
  - erewrite bindM_throw; [done|]. by apply read_throw, get_nullish.
  - erewrite bindM_ok; [|by apply read_ok, get_ok].
    by apply read_throw, get_nullish.
Qed.

Lemma createOrder_mapping_throws print stack body st :
  well_formed (heap_of st) = true -> valid (heap_of st) body = true ->
  unmappable (heap_of st) body ->
  exists st',
    DataStore.createOrder_mapping print stack body st = (Throw TypeError, st')
    /\ keeps (heap_of st) (sent st) st'.
Proof.
  intros W Vb U. rewrite createOrder_mapping_eq.
  destruct (nullish (field (heap_of st) body "_embedded")) eqn:Ne.
  { exists st. split; [|done]. erewrite bindM_throw; [done|]. by apply embedded_throws. }
  assert (K0 : keeps (heap_of st) (sent st) st) by done.
  rewrite (bindM_ok _ _ _ _ _ (embedded_run _ _ body W Vb Ne st _ K0)).
  destruct (first_or_empty_run _ _ body W Vb Ne st "fx:shipments" K0)
    as (ship & st1 & E1 & K1 & _).
  rewrite (bindM_ok _ _ _ _ _ E1).
  destruct (first_or_empty_run _ _ body W Vb Ne st1 "fx:payments" K1)
    as (pay & st2 & E2 & K2 & _ & _ & Npay & _).
  rewrite (bindM_ok _ _ _ _ _ E2).
  rewrite (bindM_ok _ _ _ _ _ (embedded_run _ _ body W Vb Ne st2 _ K2)).
  assert (N : nullish (relation (heap_of st) body "fx:customer") = true
              \/ nullish pay = true).
  { destruct U as [?|(p & Hp & Np)]; [by left|]. right.
    rewrite Hp in Npay. destruct (nullish pay); [done|].
    destruct Npay as [Npay _]. rewrite Npay in Np; done. }
  pose proof (createOrder_fill_throws print stack body _ ship pay
                (relation (heap_of st) body "fx:items") st2 N) as T.
  unfold wp in T. destruct (createOrder_fill _ _ _ _ _ _ _ st2) as [[?|e] st']; [done|].
  destruct T as [-> K]. exists st'. split; [done|].
  by eapply keeps_trans.
Qed.

End FillThrows.
Import FillThrows.

(** One step along every path where any exception is allowed; the
    order's own [status] is read from what has been assigned so far. *)
Ltac wp_step_keys :=
  cbv beta;
  lazymatch goal with
  | |- wp (read (fun h => get h (VRef _) "status")) _ _ _ =>
      apply (wp_get_eq _ _ VUndef);
      [ unfold field, own_props; heap_lookup;
        cbn [fmap option_fmap option_map on_props];
        rewrite !lookup_insert_ne by done; by rewrite lookup_empty
      | done | ]
  | _ => wp_step; try exact I
  end.

Module KeyFacts.

Lemma createOrder_fill_keys print stack body fxCustomer fxShipment fxPayment fxItems st :
  wp (createOrder_fill print stack body fxCustomer fxShipment fxPayment fxItems)
     (fun order st' =>
        exists props,
          heap_of st' !! order = Some (OObj props)
          /\ dom props = order_keys
          /\ props !! "payment_sattus" = Some VUndef
          /\ props !! "source_name" = Some (VStr "Foxy.io"))
     (fun _ _ => True)
     st.
Proof.
  unfold createOrder_fill, DataStore.assign.
  repeat wp_step_keys.
  all: eexists; split;
    [ heap_lookup; cbn [fmap option_fmap option_map on_props]; reflexivity | ].
  all: split_and!;
    [ rewrite !dom_insert_L, dom_empty_L; unfold order_keys; cbn [list_to_set];
      set_solver
    | rewrite !lookup_insert_ne by done; apply lookup_insert_eq
    | rewrite !lookup_insert_ne by done; apply lookup_insert_eq ].
Qed.

Lemma wp_any {A} (m : M A) (Q : A -> state -> Prop) st :
  (forall a st', m st = (Ok a, st') -> Q a st') -> wp m Q (fun _ _ => True) st.
Proof. intros H. unfold wp. destruct (m st) as [[a|e] st']; [by apply H | done]. Qed.

Lemma createOrder_mapping_keys print stack body st :
  wp (DataStore.createOrder_mapping print stack body)
     (fun order st' =>
        exists props,
          heap_of st' !! order = Some (OObj props)
          /\ dom props = order_keys
          /\ props !! "payment_sattus" = Some VUndef
          /\ props !! "source_name" = Some (VStr "Foxy.io"))
     (fun _ _ => True)
     st.
Proof.
  rewrite createOrder_mapping_eq.
  do 4 (apply wp_bind, wp_any; intros ? ? _; cbv beta).
  apply createOrder_fill_keys.
Qed.

End KeyFacts.
Import KeyFacts.

(** ** The constructor *)

(** X1.  An adapter that the constructor returns has a truthy store id
    and a truthy API key, which are what [parseConfigCredentials] gives
    for the configuration; so none of its three default headers is empty
    or undefined, and every endpoint it builds is under
    [https://app.orderdesk.me/api/v2/]. *)
Theorem constructor_credentials_invariant (base : result unit) (cfg : config.t)
    (this : DataStore.t) :
  DataStore.constructor base cfg = Ok this ->
  truthy (DataStore.id (DataStore.credentials this)) = true
  /\ truthy (DataStore.key (DataStore.credentials this)) = true
  /\ DataStore.parseConfigCredentials cfg = Ok (DataStore.credentials this)
  /\ Forall (fun header => truthy (snd header) = true) (DataStore.getDefaultHeader this)
  /\ forall path, DataStore.buildEndpoint this path
                  = "https://app.orderdesk.me/api/v2/" +:+ path.
Proof.
  unfold DataStore.constructor, DataStore.setCredentials.
  destruct base as [[]|]; [|done]. cbn [bind].
  destruct (DataStore.parseConfigCredentials cfg) as [c|]; [|done]. cbn [bind].
  destruct (truthy (DataStore.key c)) eqn:K, (truthy (DataStore.id c)) eqn:I;
    try done.
  intros [= <-]. cbn. split_and!; try done.
  unfold DataStore.getDefaultHeader. cbn. by repeat constructor.
Qed.

Lemma constructor_credentials_invariant_witness :
  truthy (DataStore.id (DataStore.credentials Scenarios.adapter)) = true
  /\ truthy (DataStore.key (DataStore.credentials Scenarios.adapter)) = true
  /\ DataStore.parseConfigCredentials Scenarios.config_combined
     = Ok (DataStore.credentials Scenarios.adapter)
  /\ Forall (fun header => truthy (snd header) = true)
       (DataStore.getDefaultHeader Scenarios.adapter)
  /\ forall path, DataStore.buildEndpoint Scenarios.adapter path
                  = "https://app.orderdesk.me/api/v2/" +:+ path.
Proof.
  apply (constructor_credentials_invariant (Ok tt) Scenarios.config_combined
           Scenarios.adapter).
  reflexivity.
Defined.

(** X2.  When the base constructor returns, the constructor returns an
    adapter exactly in two cases: the combined string matches, and the
    credentials are its two groups; or the combined value is absent or a
    string that does not match, both discrete fields are truthy, and the
    credentials are the discrete fields.  The domain and the API path are
    fixed. *)
Theorem constructor_succeeds_iff (cfg : config.t) (this : DataStore.t) :
  DataStore.constructor (Ok tt) cfg = Ok this
  <-> DataStore.domain this = "app.orderdesk.me"
      /\ DataStore.api this = "api/v2/"
      /\ ((exists i k, Spec.combined_matches cfg i k
                       /\ DataStore.credentials this
                          = {| DataStore.id := VStr i; DataStore.key := VStr k |})
          \/ (Spec.combined_absent_or_malformed cfg
              /\ Spec.discrete_present cfg
              /\ DataStore.credentials this = Spec.discrete_credentials cfg)).
Proof.
  unfold DataStore.constructor, DataStore.setCredentials. cbn [bind]. split.
  - destruct (parse_cases cfg) as [(i & k & M & ->)|[[A ->]|(_ & _ & ->)]];
      cbn [bind]; [| |done].
    + cbn [DataStore.key DataStore.id]. destruct M as (b & ? & Hi & Hk).
      rewrite (truthy_store_id _ Hi), (truthy_api_key _ Hk). cbn [negb orb].
      intros [= <-]. cbn. split_and!; [done..|]. left. exists i, k.
      split; [by exists b | done].
    + destruct (truthy (DataStore.key _)) eqn:K, (truthy (DataStore.id _)) eqn:I;
        try done.
      intros [= <-]. cbn. split_and!; [done..|]. by right.
  - destruct this as [d a c]. cbn. intros (-> & -> & [(i & k & M & ->)|(A & [I K] & ->)]).
    + rewrite (parse_matching _ _ _ M). cbn [bind DataStore.key DataStore.id].
      destruct M as (b & ? & Hi & Hk).
      by rewrite (truthy_store_id _ Hi), (truthy_api_key _ Hk).
    + rewrite (parse_fallback _ A). cbn [bind]. by rewrite I, K.
Qed.

(** X3.  A combined credentials value that is truthy and not a string (a
    number, [true], an object) has no [match] method: parsing throws a
    TypeError, and so does the constructor, whatever the discrete fields
    hold. *)
Theorem constructor_rejects_non_string (cfg : config.t) :
  truthy (Spec.raw_credentials cfg) = true ->
  (forall s, Spec.raw_credentials cfg <> VStr s) ->
  DataStore.parseConfigCredentials cfg = Throw TypeError
  /\ DataStore.constructor (Ok tt) cfg = Throw TypeError.
Proof.
  intros T N.
  assert (DataStore.parseConfigCredentials cfg = Throw TypeError) as E.
  { unfold DataStore.parseConfigCredentials. fold (Spec.raw_credentials cfg).
    rewrite T. destruct (Spec.raw_credentials cfg) as [| | | |s|]; try done.
    by destruct (N s). }
  split; [done|].
  unfold DataStore.constructor, DataStore.setCredentials. by rewrite E.
Qed.

Lemma constructor_rejects_non_string_witness :
  DataStore.parseConfigCredentials Cases.config_boolean = Throw TypeError
  /\ DataStore.constructor (Ok tt) Cases.config_boolean = Throw TypeError.
Proof.
  apply (constructor_rejects_non_string Cases.config_boolean).
  - reflexivity.
  - intros s. discriminate.
Defined.

(** ** [parseConfigCredentials] *)

(** X4.  The pattern is anchored at the end: a combined string whose last
    character is not a letter or a digit (a trailing space or newline)
    never matches, and the discrete fields are returned. *)
Theorem parseConfigCredentials_end_anchor (cfg : config.t) (s : string) (c : ascii) :
  Spec.raw_credentials cfg = VStr (s +:+ String c "") ->
  is_alnum c = false ->
  DataStore.parseConfigCredentials cfg = Ok (Spec.discrete_credentials cfg).
Proof.
  intros E Hc. apply parse_fallback. right. eexists. split; [done|].
  intros. apply string_match_None_inv; [|done..].
  by apply string_match_trailing.
Qed.

Lemma parseConfigCredentials_end_anchor_witness :
  DataStore.parseConfigCredentials Cases.config_trailing
  = Ok (Spec.discrete_credentials Cases.config_trailing).
Proof.
  apply (parseConfigCredentials_end_anchor Cases.config_trailing
           "Store ID 12345 API Key abcDEF123" " ").
  - reflexivity.
  - reflexivity.
Defined.

(** ** [validateInventoryItem] *)

(** X5.  [validateInventoryItem] throws exactly on [null] and
    [undefined], and then a TypeError; on every other value, whatever its
    type, it returns a boolean. *)
Theorem validateInventoryItem_throws_iff_nullish (h : heap) (item : value) :
  (forall e, DataStore.validateInventoryItem h item = Throw e
             <-> nullish item = true /\ e = TypeError)
  /\ (nullish item = false ->
      exists b, DataStore.validateInventoryItem h item = Ok b).
Proof.
  rewrite validateInventoryItem_eq. destruct (nullish item); split.
  - intros e. split; [by intros [= <-] | by intros [_ ->]].
  - done.
  - intros e. split; [done | by intros [? _]].
  - by eexists.
Qed.

(** X6.  What [validateInventoryItem] accepts is an object, and each
    of its five properties reads as something other than [undefined]: no
    string, number or boolean is accepted. *)
Theorem validateInventoryItem_accepts_only_objects (h : heap) (item : value) :
  DataStore.validateInventoryItem h item = Ok true ->
  (exists l, item = VRef l /\ is_Some (h !! l))
  /\ Forall (fun k => field h item k <> VUndef)
       ["id"; "name"; "code"; "price"; "stock"].
Proof.
  rewrite validateInventoryItem_eq. destruct (nullish item); [done|].
  intros [= A]. unfold Spec.accepts, Spec.truthy_or_zero in A.
  apply andb_true_iff in A as [A Tstock]. apply andb_true_iff in A as [A Tprice].
  apply andb_true_iff in A as [A Tcode]. apply andb_true_iff in A as [Tid Tname].
  split.
  - destruct (truthy_field _ _ _ Tid) as (x & Hx & _).
    destruct (own_props_named _ _ _ _ Hx) as (l & props & -> & Hl & _); [done|].
    exists l. split; [done | by eexists].
  - rewrite !Forall_cons, Forall_nil. split_and!; [..|done]; intros E.
    + by rewrite E in Tid.
    + by rewrite E in Tname.
    + by rewrite E in Tcode.
    + by rewrite E in Tprice.
    + by rewrite E in Tstock.
Qed.

Lemma validateInventoryItem_accepts_only_objects_witness :
  (exists l, VRef 0 = VRef l /\ is_Some (heap_of Scenarios.inventory !! l))
  /\ Forall (fun k => field (heap_of Scenarios.inventory) (VRef 0) k <> VUndef)
       ["id"; "name"; "code"; "price"; "stock"].
Proof.
  apply (validateInventoryItem_accepts_only_objects (heap_of Scenarios.inventory)
           (VRef 0)).
  reflexivity.
Defined.

(** ** [convertToCanonical] *)

(** X7.  Conversion does not change validity: the canonical form of an
    item is accepted by [validateInventoryItem] exactly when the item
    is. *)
Theorem convertToCanonical_preserves_validity (st : state) (item : value) :
  nullish item = false ->
  exists canonical st',
    DataStore.convertToCanonical item st = (Ok canonical, st')
    /\ DataStore.validateInventoryItem (heap_of st') canonical
       = DataStore.validateInventoryItem (heap_of st) item.
Proof.
  intros N. eexists _, _. split; [by apply convertToCanonical_run|].
  rewrite !validateInventoryItem_eq, N. cbn [nullish extend heap_of].
  by rewrite accepts_canonical.
Qed.

Lemma convertToCanonical_preserves_validity_witness :
  exists canonical st',
    DataStore.convertToCanonical (VRef 1) Scenarios.inventory = (Ok canonical, st')
    /\ DataStore.validateInventoryItem (heap_of st') canonical
       = DataStore.validateInventoryItem (heap_of Scenarios.inventory) (VRef 1).
Proof.
  apply (convertToCanonical_preserves_validity Scenarios.inventory (VRef 1)).
  reflexivity.
Defined.

(** X8.  [convertToCanonical] throws exactly on [null] and [undefined]:
    a TypeError, with the heap as it was.  Strings, numbers and booleans
    are converted. *)
Theorem convertToCanonical_throws_iff_nullish (st st' : state) (item : value) (e : error) :
  DataStore.convertToCanonical item st = (Throw e, st')
  <-> nullish item = true /\ e = TypeError /\ st' = st.
Proof.
  destruct (nullish item) eqn:N.
  - unfold DataStore.convertToCanonical.
    erewrite bindM_ok; [|by apply read_ok].
    erewrite bindM_throw; [|by apply read_throw, get_nullish].
    split; [by intros [= <- <-] | by intros (_ & -> & ->)].
  - rewrite convertToCanonical_run by done. split; [done | by intros [? _]].
Qed.

(** ** The inventory operations *)

Section Inventory.

Variable number_to_string : float -> string.
Variable stack : nat.
Variable JSON_stringify : heap -> value -> result string.
Variable fetch_json : request -> heap -> result value * heap.
Variable this : DataStore.t.

(** X9.  For an array whose items are all valid, [updateInventoryItems]
    makes the empty array of invalid items, serializes the array it was
    given, and sends one PUT to [batch-inventory-items] with that body
    and the default headers; its outcome is the transport's.  When
    serialization throws, nothing is sent. *)
Theorem updateInventoryItems_submits_valid_batch st l elems :
  heap_of st !! l = Some (OArr elems) ->
  Forall (fun item => DataStore.validateInventoryItem (heap_of st) item = Ok true) elems ->
  DataStore.updateInventoryItems number_to_string stack JSON_stringify fetch_json
    this (VRef l) st
  = match JSON_stringify (heap_of st ++ [OArr []]) (VRef l) with
    | Ok json => sent_from fetch_json (update_request this json) (extend st (OArr []))
    | Throw e => (Throw e, extend st (OArr []))
    end.
Proof.
  intros Hl Hall.
  unfold DataStore.updateInventoryItems, DataStore.Array_filter.
  rewrite (bindM_ok _ _ st (length (heap_of st)) (extend st (OArr []))).
  2:{ erewrite bindM_ok; [reflexivity|]. apply read_ok. rewrite Hl.
      apply filter_result_none. eapply Forall_impl; [exact Hall|].
      by intros item ->. }
  rewrite (bindM_ok _ _ _ 0 (extend st (OArr []))).
  2:{ unfold DataStore.Array_length. apply read_ok.
      by rewrite lookup_extend_new. }
  cbn [Nat.ltb Nat.leb]. unfold bindM, read. cbn [extend heap_of].
  destruct (JSON_stringify _ _) as [json|e]; [|done].
  apply fetch_run.
Qed.

(** X10.  Both inventory operations need an array: on anything else (a
    string of codes, a single item, [undefined]) they throw a TypeError
    before anything is sent, and leave the heap as it was. *)
Theorem inventory_calls_need_an_array items st :
  is_array (heap_of st) items = false ->
  DataStore.updateInventoryItems number_to_string stack JSON_stringify fetch_json
    this items st = (Throw TypeError, st)
  /\ DataStore.fetchInventoryItems number_to_string stack fetch_json this items st
     = (Throw TypeError, st).
Proof.
  intros N. split.
  - unfold DataStore.updateInventoryItems, DataStore.Array_filter.
    erewrite bindM_throw; [done|]. erewrite bindM_throw; [done|].
    apply read_throw. unfold is_array in N. destruct items as [| | | | |l]; try done.
    by destruct (heap_of st !! l) as [[]|].
  - unfold DataStore.fetchInventoryItems.
    erewrite bindM_throw; [done|]. by apply read_throw, join_not_array.
Qed.

(** X11.  Once the codes are joined, [fetchInventoryItems] sends its one
    GET whatever follows; a rejection of the transport is the
    operation's exception, and a response body that is [null] makes it
    throw a TypeError after the request has gone out. *)
Theorem fetchInventoryItems_failures items st joined :
  join number_to_string stack (heap_of st) items = Ok joined ->
  sent (snd (DataStore.fetchInventoryItems number_to_string stack fetch_json this
               items st))
  = sent st ++ [codes_request this joined]
  /\ (forall e,
         fst (fetch_json (codes_request this joined) (heap_of st)) = Throw e ->
         fst (DataStore.fetchInventoryItems number_to_string stack fetch_json this
                items st) = Throw e)
  /\ (forall parsed,
         fst (fetch_json (codes_request this joined) (heap_of st)) = Ok parsed ->
         nullish parsed = true ->
         fst (DataStore.fetchInventoryItems number_to_string stack fetch_json this
                items st) = Throw TypeError).
Proof.
  intros J. rewrite (fetchInventoryItems_run _ _ _ _ _ _ _ J). cbn [fst snd sent_from sent].
  split_and!; [done|..].
  - by intros e ->.
  - intros parsed -> N. cbn [bind]. by apply get_nullish.
Qed.

(** X12.  The codes are joined with commas and nothing escapes a comma
    inside a code: the one code ["a,b"] and the two codes ["a"], ["b"]
    give the same request and the same outcome. *)
Theorem fetchInventoryItems_splits_on_commas st l1 l2 (a b : string) (rest : list string) :
  heap_of st !! l1 = Some (OArr (VStr <$> (a +:+ "," +:+ b) :: rest)) ->
  heap_of st !! l2 = Some (OArr (VStr <$> a :: b :: rest)) ->
  DataStore.fetchInventoryItems number_to_string stack fetch_json this (VRef l1) st
  = DataStore.fetchInventoryItems number_to_string stack fetch_json this (VRef l2) st.
Proof.
  intros H1 H2.
  rewrite (fetchInventoryItems_run _ _ _ _ _ _ _ (join_strings _ _ _ _ _ H1)).
  rewrite (fetchInventoryItems_run _ _ _ _ _ _ _ (join_strings _ _ _ _ _ H2)).
  by rewrite concat_comma.
Qed.

(** X13.  The query of [fetchInventoryItems] is form-encoded: after
    [?code=] the URL holds only letters, digits and [*-._+%], whatever
    the codes contain, so a code cannot add a parameter or a fragment. *)
Theorem fetchInventoryItems_query_is_encoded items st joined :
  join number_to_string stack (heap_of st) items = Ok joined ->
  exists query,
    sent (snd (DataStore.fetchInventoryItems number_to_string stack fetch_json this
                 items st))
    = sent st ++ [ {| url := DataStore.buildEndpoint this "inventory-items"
                             +:+ "?code=" +:+ query;
                      method := "GET";
                      headers := DataStore.getDefaultHeader this;
                      body := None |} ]
    /\ forallb url_safe (list_ascii_of_string query) = true.
Proof.
  intros J. exists (urlencode joined).
  rewrite (fetchInventoryItems_run _ _ _ _ _ _ _ J). split; [done|].
  apply urlencode_safe.
Qed.

End Inventory.

Lemma updateInventoryItems_submits_valid_batch_witness :
  DataStore.updateInventoryItems Scenarios.number_to_string Scenarios.stack
    Scenarios.JSON_stringify (Scenarios.answer (OObj ∅)) Scenarios.adapter
    (VRef 2) Cases.batch
  = match Scenarios.JSON_stringify (heap_of Cases.batch ++ [OArr []]) (VRef 2) with
    | Ok json =>
        sent_from (Scenarios.answer (OObj ∅))
          (update_request Scenarios.adapter json) (extend Cases.batch (OArr []))
    | Throw e => (Throw e, extend Cases.batch (OArr []))
    end.
Proof.
  apply (updateInventoryItems_submits_valid_batch Scenarios.number_to_string
           Scenarios.stack Scenarios.JSON_stringify (Scenarios.answer (OObj ∅))
           Scenarios.adapter Cases.batch 2 [VRef 0; VRef 1]).
  - reflexivity.
  - constructor; [reflexivity|]. constructor; [reflexivity|]. constructor.
Defined.

Lemma inventory_calls_need_an_array_witness :
  DataStore.updateInventoryItems Scenarios.number_to_string Scenarios.stack
    Scenarios.JSON_stringify (Scenarios.answer (OObj ∅)) Scenarios.adapter
    (VStr "SKU1") Scenarios.inventory = (Throw TypeError, Scenarios.inventory)
  /\ DataStore.fetchInventoryItems Scenarios.number_to_string Scenarios.stack
       (Scenarios.answer (OObj ∅)) Scenarios.adapter (VStr "SKU1") Scenarios.inventory
     = (Throw TypeError, Scenarios.inventory).
Proof.
  apply (inventory_calls_need_an_array Scenarios.number_to_string Scenarios.stack
           Scenarios.JSON_stringify (Scenarios.answer (OObj ∅)) Scenarios.adapter
           (VStr "SKU1") Scenarios.inventory).
  reflexivity.
Defined.

Lemma fetchInventoryItems_failures_witness :
  sent (snd (DataStore.fetchInventoryItems Scenarios.number_to_string Scenarios.stack
               Cases.refuse Scenarios.adapter (VRef 3)
               Scenarios.inventory))
  = sent Scenarios.inventory ++ [codes_request Scenarios.adapter "SKU1,SKU2"]
  /\ fst (DataStore.fetchInventoryItems Scenarios.number_to_string Scenarios.stack
            Cases.refuse Scenarios.adapter (VRef 3)
            Scenarios.inventory) = Throw (Rejected "connection refused").
Proof.
  pose proof (fetchInventoryItems_failures Scenarios.number_to_string Scenarios.stack
                Cases.refuse Scenarios.adapter (VRef 3)
                Scenarios.inventory "SKU1,SKU2" eq_refl) as (S & R & _).
  split; [exact S | exact (R _ eq_refl)].
Defined.

Lemma fetchInventoryItems_splits_on_commas_witness :
  DataStore.fetchInventoryItems Scenarios.number_to_string Scenarios.stack
    (Scenarios.answer (OObj ∅)) Scenarios.adapter (VRef 3) Cases.batch
  = DataStore.fetchInventoryItems Scenarios.number_to_string Scenarios.stack
      (Scenarios.answer (OObj ∅)) Scenarios.adapter (VRef 4) Cases.batch.
Proof.
  apply (fetchInventoryItems_splits_on_commas Scenarios.number_to_string
           Scenarios.stack (Scenarios.answer (OObj ∅)) Scenarios.adapter
           Cases.batch 3 4 "A" "B" ["C"]).
  - reflexivity.
  - reflexivity.
Defined.

Lemma fetchInventoryItems_query_is_encoded_witness :
  exists query,
    sent (snd (DataStore.fetchInventoryItems Scenarios.number_to_string
                 Scenarios.stack (Scenarios.answer (OObj ∅)) Scenarios.adapter
                 (VRef 3) Cases.batch))
    = sent Cases.batch
      ++ [ {| url := DataStore.buildEndpoint Scenarios.adapter "inventory-items"
                     +:+ "?code=" +:+ query;
              method := "GET";
              headers := DataStore.getDefaultHeader Scenarios.adapter;
              body := None |} ]
    /\ forallb url_safe (list_ascii_of_string query) = true.
Proof.
  apply (fetchInventoryItems_query_is_encoded Scenarios.number_to_string
           Scenarios.stack (Scenarios.answer (OObj ∅)) Scenarios.adapter
           (VRef 3) Cases.batch "A,B,C").
  reflexivity.
Defined.

(** ** [createOrder] *)

Section MoreOrders.

Variable number_to_string : float -> string.
Variable stack : nat.
Variable JSON_stringify : heap -> value -> result string.
Variable fetch_json : request -> heap -> result value * heap.
Variable this : DataStore.t.

(** X14.  The whole mapping.  For a payload with a customer, with a
    first payment that is not null if it has payments, and with a
    primitive expiry month and year, the mapping returns a new order
    whose seventeen fields are the ones read from the payload, its
    customer and its first payment (or [undefined] for each payment
    field when there are no payments), whose [customer] is a new object
    with the two names and whose [shipping] is a new copy of the first
    shipment without [_links]; nothing is sent and the caller's objects
    are as they were. *)
Theorem createOrder_maps_the_payload body st :
  mappable (heap_of st) body ->
  exists order st',
    DataStore.createOrder_mapping number_to_string stack body st = (Ok order, st')
    /\ mapped number_to_string st body order st'.
Proof. apply createOrder_mapping_run. Qed.

(** X15.  For such a payload [createOrder] serializes the order that the
    mapping returns and sends one POST to [orders] with that body and
    the default headers; its outcome is the transport's.  When
    serialization throws, that is the exception and nothing is sent. *)
Theorem createOrder_posts_the_order body st :
  mappable (heap_of st) body ->
  exists order st',
    DataStore.createOrder_mapping number_to_string stack body st = (Ok order, st')
    /\ sent st' = sent st
    /\ match JSON_stringify (heap_of st') (VRef order) with
       | Ok json =>
           DataStore.createOrder number_to_string stack JSON_stringify fetch_json
             this body st
           = sent_from fetch_json (order_request this json) st'
       | Throw e =>
           DataStore.createOrder number_to_string stack JSON_stringify fetch_json
             this body st
           = (Throw e, st')
       end.
Proof.
  intros Hm.
  destruct (createOrder_mapping_run number_to_string stack body st Hm)
    as (order & st' & E & _ & _ & S & _).
  exists order, st'. split_and!; [done..|].
  unfold DataStore.createOrder.
  rewrite (bindM_ok _ _ _ _ _ E).
  destruct (JSON_stringify (heap_of st') (VRef order)) as [json|e] eqn:J.
  - rewrite (bindM_ok _ _ _ _ _ (read_ok _ _ _ J)). apply fetch_run.
  - erewrite bindM_throw; [done|]. by apply read_throw.
Qed.

(** X16.  A payload without a customer, or with a payments relation
    whose first entry is missing or null (an empty array: [[]] is
    truthy, so the [{}] default is not taken), makes [createOrder] throw
    a TypeError; nothing is sent and the caller's objects are as they
    were.  An empty shipments array, by contrast, is mapped. *)
Theorem createOrder_rejects_unmappable body st :
  well_formed (heap_of st) = true -> valid (heap_of st) body = true ->
  unmappable (heap_of st) body ->
  exists st',
    DataStore.createOrder number_to_string stack JSON_stringify fetch_json this
      body st = (Throw TypeError, st')
    /\ sent st' = sent st
    /\ heap_of st `prefix_of` heap_of st'.
Proof.
  intros W V U.
  destruct (createOrder_mapping_throws number_to_string stack body st W V U)
    as (st' & E & S & P).
  exists st'. split_and!; [|done..].
  unfold DataStore.createOrder. by erewrite bindM_throw.
Qed.

(** X17.  Whatever the payload, an order that the mapping returns has
    exactly the seventeen fields of the literal, [status] not among
    them; its [payment_sattus] is [undefined], since it is read from the
    order's own [status], and its [source_name] is ["Foxy.io"]. *)
Theorem createOrder_order_fields body st order st' :
  DataStore.createOrder_mapping number_to_string stack body st = (Ok order, st') ->
  exists props,
    heap_of st' !! order = Some (OObj props)
    /\ dom props = order_keys
    /\ props !! "payment_sattus" = Some VUndef
    /\ props !! "source_name" = Some (VStr "Foxy.io").
Proof.
  intros E. pose proof (createOrder_mapping_keys number_to_string stack body st) as K.
  unfold wp in K. by rewrite E in K.
Qed.

(** X18.  Each of the three operations sends at most one request, on
    every input and every outcome, and that request carries the default
    headers and a URL built by [buildEndpoint]. *)
Theorem operations_send_at_most_once v st :
  sent_at_most_one this st
    (snd (DataStore.updateInventoryItems number_to_string stack JSON_stringify
            fetch_json this v st))
  /\ sent_at_most_one this st
       (snd (DataStore.fetchInventoryItems number_to_string stack fetch_json this
               v st))
  /\ sent_at_most_one this st
       (snd (DataStore.createOrder number_to_string stack JSON_stringify fetch_json
               this v st)).
Proof.
  split_and!.
  - unfold DataStore.updateInventoryItems, DataStore.Array_filter,
      DataStore.Array_length, DataStore.throw_new_Error, bindM, read, alloc, throw.
    repeat (case_match; simplify_eq/=; try by left).
    all: right; eexists; (split; [by rewrite sent_fetch|]).
    all: split; [done|by eexists].
  - unfold DataStore.fetchInventoryItems, bindM, read.
    destruct (join _ _ _ _) as [codes|e]; [|by left].
    match goal with
    | |- context [DataStore.fetch ?f ?r ?s] =>
        pose proof (sent_fetch f r s) as S;
        destruct (DataStore.fetch f r s) as [[parsed|e] st1]
    end; cbn [snd] in S.
    all: right; eexists; (split; [by repeat case_match|]).
    all: split; [done|]; eexists; cbn [url]; apply buildEndpoint_app.
  - unfold DataStore.createOrder.
    pose proof (createOrder_mapping_wp number_to_string stack v st) as K.
    unfold wp in K. unfold bindM at 1.
    destruct (DataStore.createOrder_mapping _ _ _ st) as [[order|e] st1].
    2: { left. by destruct K. }
    destruct K as [[S _] _]. unfold bindM, read.
    destruct (JSON_stringify _ _) as [json|e]; [|by left].
    right. eexists. split; [by rewrite sent_fetch, S|].
    split; [done|by eexists].
Qed.

End MoreOrders.

Lemma createOrder_maps_the_payload_witness :
  exists order st',
    DataStore.createOrder_mapping Scenarios.number_to_string Scenarios.stack
      (VRef 0) Cases.paid_orders = (Ok order, st')
    /\ mapped Scenarios.number_to_string Cases.paid_orders (VRef 0) order st'.
Proof.
  apply (createOrder_maps_the_payload Scenarios.number_to_string Scenarios.stack
           (VRef 0) Cases.paid_orders).
  unfold mappable. split_and!; reflexivity.
Defined.

Lemma createOrder_posts_the_order_witness :
  exists order st',
    DataStore.createOrder_mapping Scenarios.number_to_string Scenarios.stack
      (VRef 0) Cases.paid_orders = (Ok order, st')
    /\ sent st' = sent Cases.paid_orders
    /\ match Scenarios.JSON_stringify (heap_of st') (VRef order) with
       | Ok json =>
           DataStore.createOrder Scenarios.number_to_string Scenarios.stack
             Scenarios.JSON_stringify (Scenarios.answer (OObj ∅)) Scenarios.adapter
             (VRef 0) Cases.paid_orders
           = sent_from (Scenarios.answer (OObj ∅))
               (order_request Scenarios.adapter json) st'
       | Throw e =>
           DataStore.createOrder Scenarios.number_to_string Scenarios.stack
             Scenarios.JSON_stringify (Scenarios.answer (OObj ∅)) Scenarios.adapter
             (VRef 0) Cases.paid_orders
           = (Throw e, st')
       end.
Proof.
  apply (createOrder_posts_the_order Scenarios.number_to_string Scenarios.stack
           Scenarios.JSON_stringify (Scenarios.answer (OObj ∅)) Scenarios.adapter
           (VRef 0) Cases.paid_orders).
  unfold mappable. split_and!; reflexivity.
Defined.

Lemma createOrder_rejects_unmappable_witness :
  exists st',
    DataStore.createOrder Scenarios.number_to_string Scenarios.stack
      Scenarios.JSON_stringify (Scenarios.answer (OObj ∅)) Scenarios.adapter
      (VRef 9) Cases.paid_orders = (Throw TypeError, st')
    /\ sent st' = sent Cases.paid_orders
    /\ heap_of Cases.paid_orders `prefix_of` heap_of st'.
Proof.
  apply (createOrder_rejects_unmappable Scenarios.number_to_string Scenarios.stack
           Scenarios.JSON_stringify (Scenarios.answer (OObj ∅)) Scenarios.adapter
           (VRef 9) Cases.paid_orders).
  - reflexivity.
  - reflexivity.
  - right. exists VUndef. split; reflexivity.
Defined.

Lemma createOrder_order_fields_witness :
  exists props,
    heap_of (snd (DataStore.createOrder_mapping Scenarios.number_to_string
                    Scenarios.stack (VRef 0) Cases.paid_orders)) !! 13
    = Some (OObj props)
    /\ dom props = order_keys
    /\ props !! "payment_sattus" = Some VUndef
    /\ props !! "source_name" = Some (VStr "Foxy.io").
Proof.
  apply (createOrder_order_fields Scenarios.number_to_string Scenarios.stack
           (VRef 0) Cases.paid_orders).
  vm_compute. reflexivity.
Defined.
